(** * OmniPair GAMM risk simulation: a shallow embedding of the engine

    The development follows the Python modules one by one:
    [Config] (config.py), [Ema] (ema_engine.py), [CF] (collateral_factor.py),
    [Liq] (liquidation_engine.py) and [Pool] (gamm_pool.py).

    Python integers are unbounded, so they are [Z]; [//] is floor division,
    which is [Z.div].  Python floats are IEEE-754 binary64 numbers and are
    modelled with the Standard Library's executable specification
    [SpecFloat] at precision 53 and maximal exponent 1024.  Exceptions are
    values of an error monad. *)

From Stdlib Require Import ZArith List Bool Lia String SpecFloat.
Import ListNotations.
Open Scope Z_scope.

(** ** Exceptions *)

Inductive exn : Type :=
| AssertionError
| ZeroDivisionError
| ValueError
| OverflowError.

Inductive result (A : Type) : Type :=
| Ok (a : A)
| Raise (e : exn).
Arguments Ok {A} a.
Arguments Raise {A} e.

Definition bind {A B : Type} (m : result A) (k : A -> result B) : result B :=
  match m with
  | Ok a => k a
  | Raise e => Raise e
  end.

Notation "x <- m ;; k" := (bind m (fun x => k))
  (at level 61, m at next level, right associativity).
Notation "' p <- m ;; k" := (bind m (fun x => match x with p => k end))
  (at level 61, p pattern, m at next level, right associativity).

(** [bind_inv H] splits a hypothesis [H : bind m k = Ok b] into the value of
    [m] and the rest of the computation. *)
Ltac bind_inv H :=
  match type of H with
  | bind ?m _ = Ok _ =>
      let a := fresh "a" in
      let Hm := fresh "Hm" in
      destruct m as [a | ] eqn:Hm; [ cbn [bind] in H | discriminate H ]
  end.

(** [bind_cases] splits a goal on the outcome of every computation that
    is bound in it. *)
Ltac bind_cases :=
  repeat match goal with
         | |- context [bind ?m _] => destruct m; cbn [bind]
         end.

(** ** Python floats (IEEE-754 binary64) *)

Module PyFloat.

Definition prec : Z := 53.
Definition emax : Z := 1024.

Definition float := spec_float.

(** [float(n)] for an integer [n]: correctly rounded to nearest-even;
    CPython raises [OverflowError] when the integer is out of range. *)
Definition of_int (n : Z) : result float :=
  match binary_normalize prec emax n 0 false with
  | S754_infinity _ => Raise OverflowError
  | f => Ok f
  end.

(** [int(x)] truncates toward zero; it raises on infinities and NaN. *)
Definition to_int (x : float) : result Z :=
  match x with
  | S754_zero _ => Ok 0
  | S754_infinity _ => Raise OverflowError
  | S754_nan => Raise ValueError
  | S754_finite s m e =>
      let a := match e with
               | Zneg p => Z.shiftr (Zpos m) (Zpos p)
               | _ => Z.shiftl (Zpos m) e
               end in
      Ok (if s then - a else a)
  end.

Definition mul : float -> float -> float := SFmul prec emax.
Definition add : float -> float -> float := SFadd prec emax.
Definition sub : float -> float -> float := SFsub prec emax.
Definition neg : float -> float := SFopp.

Definition is_zero (x : float) : bool :=
  match x with S754_zero _ => true | _ => false end.

(** [x / y] on floats raises [ZeroDivisionError] on a zero divisor. *)
Definition div (x y : float) : result float :=
  if is_zero y then Raise ZeroDivisionError else Ok (SFdiv prec emax x y).

(** [math.sqrt(n)] for an integer argument [n]: the argument is converted
    to a float first; a negative argument is a [ValueError]. *)
Definition math_sqrt (n : Z) : result float :=
  x <- of_int n ;;
  match x with
  | S754_finite true _ _ => Raise ValueError
  | _ => Ok (SFsqrt prec emax x)
  end.

Definition one : float := S754_finite false 4503599627370496 (-52).

End PyFloat.

(** ** config.py *)

Module Config.

Definition NAD : Z := 1000000000.
Definition BPS_DENOMINATOR : Z := 10000.

Definition CLOSE_FACTOR_BPS : Z := 5000.
Definition MAX_COLLATERAL_FACTOR_BPS : Z := 8500.
Definition LTV_BUFFER_BPS : Z := 500.
Definition LIQUIDATION_INCENTIVE_BPS : Z := 300.

Definition MIN_HALF_LIFE : Z := 60.
Definition MAX_HALF_LIFE : Z := 43200.
Definition DEFAULT_HALF_LIFE : Z := 60.

(** [LN_2 = 0.693147180559945309417] is the double
    [6243314768165359 * 2^-53]. *)
Definition LN_2 : PyFloat.float := S754_finite false 6243314768165359 (-53).

Record SimulationConfig : Type := {
  name : string;
  ema_enabled : bool;
  dynamic_cf_enabled : bool;
  pessimistic_cap_enabled : bool;
  ltv_buffer_enabled : bool;
  partial_liquidation_enabled : bool;
  half_life : Z;
  fixed_cf_bps : option Z;
  max_cf_bps : Z;
  ltv_buffer_bps : Z;
  close_factor_bps : Z;
  liquidation_incentive_bps : Z
}.

(** The keyword arguments of [SimulationConfig.__init__]: [None] is an
    argument the caller leaves out, so that the default applies.  The
    value of [fixed_cf_bps] may itself be Python's [None]. *)
Record SimulationConfigArgs : Type := {
  arg_name : option string;
  arg_ema_enabled : option bool;
  arg_dynamic_cf_enabled : option bool;
  arg_pessimistic_cap_enabled : option bool;
  arg_ltv_buffer_enabled : option bool;
  arg_partial_liquidation_enabled : option bool;
  arg_half_life : option Z;
  arg_fixed_cf_bps : option (option Z);
  arg_max_cf_bps : option Z;
  arg_ltv_buffer_bps : option Z;
  arg_close_factor_bps : option Z;
  arg_liquidation_incentive_bps : option Z
}.

Definition default {A : Type} (d : A) (o : option A) : A :=
  match o with Some a => a | None => d end.

Definition SimulationConfig_init (kw : SimulationConfigArgs) : SimulationConfig :=
  let ltv_buffer_enabled := default true (arg_ltv_buffer_enabled kw) in
  let partial_liquidation_enabled :=
    default true (arg_partial_liquidation_enabled kw) in
  {| name := default "Custom"%string (arg_name kw);
     ema_enabled := default true (arg_ema_enabled kw);
     dynamic_cf_enabled := default true (arg_dynamic_cf_enabled kw);
     pessimistic_cap_enabled := default true (arg_pessimistic_cap_enabled kw);
     ltv_buffer_enabled := ltv_buffer_enabled;
     partial_liquidation_enabled := partial_liquidation_enabled;
     half_life := default DEFAULT_HALF_LIFE (arg_half_life kw);
     fixed_cf_bps := default (Some 7500) (arg_fixed_cf_bps kw);
     max_cf_bps := default MAX_COLLATERAL_FACTOR_BPS (arg_max_cf_bps kw);
     ltv_buffer_bps :=
       if ltv_buffer_enabled
       then default LTV_BUFFER_BPS (arg_ltv_buffer_bps kw) else 0;
     close_factor_bps :=
       if partial_liquidation_enabled
       then default CLOSE_FACTOR_BPS (arg_close_factor_bps kw) else 10000;
     liquidation_incentive_bps :=
       default LIQUIDATION_INCENTIVE_BPS (arg_liquidation_incentive_bps kw) |}.

Definition TRADITIONAL_LENDING : SimulationConfig :=
  SimulationConfig_init
    {| arg_name := Some "Traditional Lending"%string;
       arg_ema_enabled := Some false;
       arg_dynamic_cf_enabled := Some false;
       arg_pessimistic_cap_enabled := Some false;
       arg_ltv_buffer_enabled := Some false;
       arg_partial_liquidation_enabled := Some true;
       arg_half_life := None;
       arg_fixed_cf_bps := Some (Some 7500);
       arg_max_cf_bps := None;
       arg_ltv_buffer_bps := None;
       arg_close_factor_bps := None;
       arg_liquidation_incentive_bps := None |}.

Definition ONLY_DYNAMIC_CF : SimulationConfig :=
  SimulationConfig_init
    {| arg_name := Some "Only Dynamic CF"%string;
       arg_ema_enabled := Some false;
       arg_dynamic_cf_enabled := Some true;
       arg_pessimistic_cap_enabled := Some false;
       arg_ltv_buffer_enabled := Some false;
       arg_partial_liquidation_enabled := Some true;
       arg_half_life := None;
       arg_fixed_cf_bps := None;
       arg_max_cf_bps := None;
       arg_ltv_buffer_bps := None;
       arg_close_factor_bps := None;
       arg_liquidation_incentive_bps := None |}.

Definition FULL_OMNIPAIR_GAMM : SimulationConfig :=
  SimulationConfig_init
    {| arg_name := Some "Full OmniPair GAMM"%string;
       arg_ema_enabled := Some true;
       arg_dynamic_cf_enabled := Some true;
       arg_pessimistic_cap_enabled := Some true;
       arg_ltv_buffer_enabled := Some true;
       arg_partial_liquidation_enabled := Some true;
       arg_half_life := Some 60;
       arg_fixed_cf_bps := None;
       arg_max_cf_bps := Some 8500;
       arg_ltv_buffer_bps := Some 500;
       arg_close_factor_bps := None;
       arg_liquidation_incentive_bps := None |}.

Definition CONSERVATIVE_GAMM : SimulationConfig :=
  SimulationConfig_init
    {| arg_name := Some "Conservative GAMM"%string;
       arg_ema_enabled := Some true;
       arg_dynamic_cf_enabled := Some true;
       arg_pessimistic_cap_enabled := Some true;
       arg_ltv_buffer_enabled := Some true;
       arg_partial_liquidation_enabled := Some true;
       arg_half_life := Some 300;
       arg_fixed_cf_bps := None;
       arg_max_cf_bps := Some 7500;
       arg_ltv_buffer_bps := Some 1000;
       arg_close_factor_bps := None;
       arg_liquidation_incentive_bps := None |}.

End Config.

(** ** ema_engine.py *)

Module Ema.
Import Config.

Record EMAEngine : Type := {
  half_life : Z;
  last_ema : Z;
  last_update : Z
}.

Definition EMAEngine_init (half_life : Z) : result EMAEngine :=
  if (MIN_HALF_LIFE <=? half_life) && (half_life <=? MAX_HALF_LIFE)
  then Ok {| half_life := half_life; last_ema := 0; last_update := 0 |}
  else Raise AssertionError.

Definition initialize (self : EMAEngine) (initial_price timestamp : Z)
  : EMAEngine :=
  {| half_life := half_life self;
     last_ema := initial_price;
     last_update := timestamp |}.

Record PriceOracle : Type := {
  use_ema : bool;
  ema_engine : option EMAEngine
}.

Definition PriceOracle_init (use_ema : bool) (half_life : Z)
  : result PriceOracle :=
  if use_ema
  then e <- EMAEngine_init half_life ;;
       Ok {| use_ema := use_ema; ema_engine := Some e |}
  else Ok {| use_ema := use_ema; ema_engine := None |}.

Section WithExp.

(** [math.exp] of the C library, on doubles. *)
Variable math_exp : PyFloat.float -> PyFloat.float.

(** [update] returns the new state of the engine and the price. *)
Definition update (self : EMAEngine) (current_spot_price current_time : Z)
  : result (EMAEngine * Z) :=
  if last_ema self =? 0 then
    let self' := initialize self current_spot_price current_time in
    Ok (self', last_ema self')
  else
    let dt := current_time - last_update self in
    if dt <=? 0 then Ok (self, last_ema self)
    else
      hl <- PyFloat.of_int (half_life self) ;;
      exp_time <- PyFloat.div hl LN_2 ;;
      dtf <- PyFloat.of_int dt ;;
      x <- PyFloat.div dtf exp_time ;;
      let alpha := math_exp (PyFloat.neg x) in
      spot <- PyFloat.of_int current_spot_price ;;
      old <- PyFloat.of_int (last_ema self) ;;
      let new_ema :=
        PyFloat.add (PyFloat.mul spot (PyFloat.sub PyFloat.one alpha))
                    (PyFloat.mul old alpha) in
      n <- PyFloat.to_int new_ema ;;
      Ok ({| half_life := half_life self;
             last_ema := n;
             last_update := current_time |}, n).

Definition get_price (self : PriceOracle) (spot_price timestamp : Z)
  : result (PriceOracle * Z) :=
  match use_ema self, ema_engine self with
  | true, Some e =>
      '(e', p) <- update e spot_price timestamp ;;
      Ok ({| use_ema := use_ema self; ema_engine := Some e' |}, p)
  | _, _ => Ok (self, spot_price)
  end.

(** [get_current_ema] does not touch the state of the engine. *)
Definition get_current_ema (self : EMAEngine)
    (current_spot_price current_time : Z) : result Z :=
  if last_ema self =? 0 then Ok current_spot_price
  else
    let dt := current_time - last_update self in
    if dt <=? 0 then Ok (last_ema self)
    else
      hl <- PyFloat.of_int (half_life self) ;;
      exp_time <- PyFloat.div hl LN_2 ;;
      dtf <- PyFloat.of_int dt ;;
      x <- PyFloat.div dtf exp_time ;;
      let alpha := math_exp (PyFloat.neg x) in
      spot <- PyFloat.of_int current_spot_price ;;
      old <- PyFloat.of_int (last_ema self) ;;
      let ema :=
        PyFloat.add (PyFloat.mul spot (PyFloat.sub PyFloat.one alpha))
                    (PyFloat.mul old alpha) in
      PyFloat.to_int ema.

Definition get_spot_and_ema (self : PriceOracle) (spot_price timestamp : Z)
  : result (PriceOracle * (Z * Z)) :=
  match use_ema self, ema_engine self with
  | true, Some e =>
      '(e', ema) <- update e spot_price timestamp ;;
      Ok ({| use_ema := use_ema self; ema_engine := Some e' |},
          (spot_price, ema))
  | _, _ => Ok (self, (spot_price, spot_price))
  end.

End WithExp.

Definition reset (self : EMAEngine) : EMAEngine :=
  {| half_life := half_life self; last_ema := 0; last_update := 0 |}.

End Ema.

(** ** collateral_factor.py *)

Module CF.
Import Config.

(** [int(math.sqrt(four_a_plus_one * NAD))] *)
Definition sqrt_term_of (four_a_plus_one : Z) : result Z :=
  root <- PyFloat.math_sqrt (four_a_plus_one * NAD) ;;
  PyFloat.to_int root.

Definition curve_y_from_v (v r1 : Z) : result Z :=
  if (v =? 0) || (r1 =? 0) then Ok 0 else
  let a_scaled := (v * NAD) / r1 in
  let four_a_plus_one := 4 * a_scaled + NAD in
  sqrt_term <- sqrt_term_of four_a_plus_one ;;
  let numerator := 2 * a_scaled * NAD in
  let denominator := 2 * a_scaled + NAD + sqrt_term in
  if denominator =? 0 then Ok 0 else
  let t_scaled := numerator / denominator in
  let y := (r1 * t_scaled) / NAD in
  Ok y.

Definition get_pessimistic_cf_bps (base_cf_bps spot_price ema_price : Z) : Z :=
  if ema_price =? 0 then 100 else
  let shrunk_cf := (spot_price * base_cf_bps) / ema_price in
  let cf_bps := Z.min base_cf_bps shrunk_cf in
  let cf_bps := Z.max 100 cf_bps in
  let cf_bps := Z.min MAX_COLLATERAL_FACTOR_BPS cf_bps in
  cf_bps.

Definition calculate_dynamic_cf
    (collateral_amount collateral_ema_price debt_reserve : Z) : result Z :=
  if debt_reserve =? 0 then Ok 0 else
  let v := (collateral_amount * collateral_ema_price) / NAD in
  if v =? 0 then Ok 0 else
  y_curve <- curve_y_from_v v debt_reserve ;;
  let cf_bps := (y_curve * BPS_DENOMINATOR) / v in
  Ok cf_bps.

(** Step 1 of [pessimistic_max_debt]: [Ok None] is the early
    [return (0, 0, 0)] of the dynamic branch. *)
Definition base_cf
    (collateral_amount collateral_ema_price debt_reserve : Z)
    (fixed_cf_bps : option Z) (use_dynamic_cf : bool) : result (option Z) :=
  match fixed_cf_bps with
  | Some fixed => Ok (Some fixed)
  | None =>
      if use_dynamic_cf then
        if debt_reserve =? 0 then Ok None
        else
          cf <- calculate_dynamic_cf collateral_amount collateral_ema_price
                                     debt_reserve ;;
          Ok (Some cf)
      else Ok (Some 7500)
  end.

Definition pessimistic_max_debt
    (collateral_amount collateral_ema_price collateral_spot_price
     debt_reserve : Z)
    (fixed_cf_bps : option Z)
    (use_dynamic_cf use_pessimistic_cap use_ltv_buffer : bool)
  : result (Z * Z * Z) :=
  if (collateral_amount =? 0) || (collateral_ema_price =? 0)
     || (collateral_spot_price =? 0)
  then Ok (0, 0, 0) else
  let v := (collateral_amount * collateral_ema_price) / NAD in
  step1 <- base_cf collateral_amount collateral_ema_price debt_reserve
                   fixed_cf_bps use_dynamic_cf ;;
  match step1 with
  | None => Ok (0, 0, 0)
  | Some base_cf_bps =>
      let liquidation_cf_bps :=
        if use_pessimistic_cap
        then get_pessimistic_cf_bps base_cf_bps collateral_spot_price
                                    collateral_ema_price
        else Z.min base_cf_bps MAX_COLLATERAL_FACTOR_BPS in
      let buffer := if use_ltv_buffer then LTV_BUFFER_BPS else 0 in
      let max_allowed_cf_bps := Z.max 0 (liquidation_cf_bps - buffer) in
      let max_borrow := (v * max_allowed_cf_bps) / BPS_DENOMINATOR in
      Ok (max_borrow, max_allowed_cf_bps, liquidation_cf_bps)
  end.

Record CollateralFactorCalculator : Type := {
  use_dynamic_cf : bool;
  use_pessimistic_cap : bool;
  use_ltv_buffer : bool;
  fixed_cf_bps : option Z;
  max_cf_bps : Z
}.

(** The constructor only stores its arguments. *)
Definition CollateralFactorCalculator_init
    (use_dynamic_cf use_pessimistic_cap use_ltv_buffer : bool)
    (fixed_cf_bps : option Z) (max_cf_bps : Z)
  : result CollateralFactorCalculator :=
  Ok {| use_dynamic_cf := use_dynamic_cf;
        use_pessimistic_cap := use_pessimistic_cap;
        use_ltv_buffer := use_ltv_buffer;
        fixed_cf_bps := fixed_cf_bps;
        max_cf_bps := max_cf_bps |}.

Definition calculate (self : CollateralFactorCalculator)
    (collateral_amount collateral_ema_price collateral_spot_price
     debt_reserve : Z) : result (Z * Z * Z) :=
  pessimistic_max_debt collateral_amount collateral_ema_price
    collateral_spot_price debt_reserve
    (fixed_cf_bps self) (use_dynamic_cf self) (use_pessimistic_cap self)
    (use_ltv_buffer self).

End CF.

(** ** liquidation_engine.py *)

Module Liq.
Import Config.

Definition is_liquidatable (collateral_value debt_amount liquidation_cf_bps : Z)
  : bool :=
  if collateral_value =? 0 then 0 <? debt_amount else
  let borrow_limit := (collateral_value * liquidation_cf_bps) / BPS_DENOMINATOR in
  borrow_limit <=? debt_amount.

(** The dictionary returned for a position that is not liquidatable. *)
Record HealthReport : Type := {
  hr_health_factor : Z;
  hr_collateral_value : Z;
  hr_debt_amount : Z;
  hr_borrow_limit : Z
}.

(** The dictionary returned for a liquidatable position. *)
Record Liquidation : Type := {
  is_insolvent : bool;
  debt_to_repay : Z;
  collateral_seized : Z;
  liquidator_bonus : Z;
  collateral_to_reserves : Z;
  bad_debt : Z;
  remaining_collateral : Z;
  remaining_debt : Z;
  liquidator_profit_usd : Z;
  health_factor : Z;
  collateral_value : Z;
  debt_amount : Z;
  borrow_limit : Z
}.

(** The key ["liquidatable"] of the dictionary selects the constructor. *)
Inductive LiquidationResult : Type :=
| NotLiquidatable (r : HealthReport)
| Liquidatable (l : Liquidation).

Definition liquidatable (r : LiquidationResult) : bool :=
  match r with
  | NotLiquidatable _ => false
  | Liquidatable _ => true
  end.

Definition calculate_liquidation
    (collateral_amount collateral_price debt_amount liquidation_cf_bps
     close_factor_bps liquidation_incentive_bps : Z)
  : result LiquidationResult :=
  let collateral_value := (collateral_amount * collateral_price) / NAD in
  let borrow_limit := (collateral_value * liquidation_cf_bps) / BPS_DENOMINATOR in
  if debt_amount <? borrow_limit then
    Ok (NotLiquidatable
          {| hr_health_factor :=
               if 0 <? debt_amount then (borrow_limit * 100) / debt_amount
               else 999;
             hr_collateral_value := collateral_value;
             hr_debt_amount := debt_amount;
             hr_borrow_limit := borrow_limit |})
  else
    let is_insolvent := collateral_value <? debt_amount in
    let debt_to_repay :=
      if is_insolvent then debt_amount
      else
        let partial_debt := (debt_amount * close_factor_bps) / BPS_DENOMINATOR in
        Z.min debt_amount partial_debt in
    if collateral_price =? 0 then Raise ZeroDivisionError else
    let collateral_to_seize := (debt_to_repay * NAD) / collateral_price in
    let collateral_to_seize := Z.min collateral_to_seize collateral_amount in
    let liquidator_bonus :=
      (collateral_to_seize * liquidation_incentive_bps) / BPS_DENOMINATOR in
    let collateral_to_reserves := Z.max 0 (collateral_to_seize - liquidator_bonus) in
    let bad_debt :=
      if is_insolvent then Z.max 0 (debt_amount - collateral_value) else 0 in
    let remaining_collateral := collateral_amount - collateral_to_seize in
    let remaining_debt := debt_amount - debt_to_repay in
    let liquidator_profit_usd :=
      (liquidator_bonus * collateral_price) / NAD - debt_to_repay in
    Ok (Liquidatable
          {| is_insolvent := is_insolvent;
             debt_to_repay := debt_to_repay;
             collateral_seized := collateral_to_seize;
             liquidator_bonus := liquidator_bonus;
             collateral_to_reserves := collateral_to_reserves;
             bad_debt := bad_debt;
             remaining_collateral := remaining_collateral;
             remaining_debt := remaining_debt;
             liquidator_profit_usd := liquidator_profit_usd;
             health_factor := 0;
             collateral_value := collateral_value;
             debt_amount := debt_amount;
             borrow_limit := borrow_limit |}).

Record LiquidationEngine : Type := {
  close_factor_bps : Z;
  liquidation_incentive_bps : Z;
  enable_partial_liquidation : bool;
  total_liquidations : Z;
  total_bad_debt : Z;
  total_liquidated_debt : Z;
  total_seized_collateral : Z
}.

Definition LiquidationEngine_init
    (close_factor_bps liquidation_incentive_bps : Z)
    (enable_partial_liquidation : bool) : LiquidationEngine :=
  {| close_factor_bps :=
       if enable_partial_liquidation then close_factor_bps else 10000;
     liquidation_incentive_bps := liquidation_incentive_bps;
     enable_partial_liquidation := enable_partial_liquidation;
     total_liquidations := 0;
     total_bad_debt := 0;
     total_liquidated_debt := 0;
     total_seized_collateral := 0 |}.

(** The tracking counters of the engine after a liquidation [l]. *)
Definition track (self : LiquidationEngine) (l : Liquidation)
  : LiquidationEngine :=
  {| close_factor_bps := close_factor_bps self;
     liquidation_incentive_bps := liquidation_incentive_bps self;
     enable_partial_liquidation := enable_partial_liquidation self;
     total_liquidations := total_liquidations self + 1;
     total_bad_debt := total_bad_debt self + bad_debt l;
     total_liquidated_debt := total_liquidated_debt self + debt_to_repay l;
     total_seized_collateral :=
       total_seized_collateral self + collateral_seized l |}.

Definition check_and_liquidate (self : LiquidationEngine)
    (collateral_amount collateral_price debt_amount liquidation_cf_bps : Z)
  : result (LiquidationEngine * LiquidationResult) :=
  res <- calculate_liquidation collateral_amount collateral_price debt_amount
           liquidation_cf_bps (close_factor_bps self)
           (liquidation_incentive_bps self) ;;
  match res with
  | Liquidatable l => Ok (track self l, res)
  | NotLiquidatable _ => Ok (self, res)
  end.

(** The dictionary of [LiquidationEngine.get_statistics]. *)
Record EngineStatistics : Type := {
  st_total_liquidations : Z;
  st_total_bad_debt : Z;
  st_total_liquidated_debt : Z;
  st_total_seized_collateral : Z;
  st_bad_debt_rate : Z
}.

Definition get_statistics (self : LiquidationEngine) : EngineStatistics :=
  {| st_total_liquidations := total_liquidations self;
     st_total_bad_debt := total_bad_debt self;
     st_total_liquidated_debt := total_liquidated_debt self;
     st_total_seized_collateral := total_seized_collateral self;
     st_bad_debt_rate :=
       if 0 <? total_liquidated_debt self
       then (total_bad_debt self * 100) / total_liquidated_debt self
       else 0 |}.

Definition reset (self : LiquidationEngine) : LiquidationEngine :=
  {| close_factor_bps := close_factor_bps self;
     liquidation_incentive_bps := liquidation_incentive_bps self;
     enable_partial_liquidation := enable_partial_liquidation self;
     total_liquidations := 0;
     total_bad_debt := 0;
     total_liquidated_debt := 0;
     total_seized_collateral := 0 |}.

(** [initial_price] is not used by the function. *)
Definition estimate_liquidation_price
    (collateral_amount initial_price debt_amount liquidation_cf_bps : Z)
  : result Z :=
  if collateral_amount =? 0 then Ok 0 else
  let divisor := (collateral_amount * liquidation_cf_bps) / BPS_DENOMINATOR in
  if divisor =? 0 then Raise ZeroDivisionError
  else Ok ((debt_amount * BPS_DENOMINATOR) / divisor).








End Liq.

(** ** gamm_pool.py *)

Module Pool.
Import Config.

Record BorrowerPosition : Type := {
  id : Z;
  collateral_amount : Z;
  debt_amount : Z;
  entry_price : Z;
  entry_time : Z;
  liquidated : bool;
  liquidation_time : option Z;
  liquidation_price : option Z;
  bad_debt_accrued : Z
}.

Record PoolState : Type := {
  ps_timestamp : Z;
  ps_reserve_base : Z;
  ps_reserve_quote : Z;
  ps_total_debt : Z;
  ps_total_collateral : Z;
  ps_spot_price : Z;
  ps_ema_price : Z;
  ps_average_cf_bps : Z;
  ps_active_positions : Z;
  ps_total_bad_debt : Z;
  ps_protocol_health_pct : Z
}.

(** A liquidation event: the keys added by the pool and the result of the
    liquidation engine. *)
Record LiquidationEvent : Type := {
  ev_timestamp : Z;
  ev_position_id : Z;
  ev_price : Z;
  ev_spot_price : Z;
  ev_ema_price : Z;
  ev_result : Liq.Liquidation
}.

Record GAMMPool : Type := {
  config : SimulationConfig;
  reserve_base : Z;
  reserve_quote : Z;
  total_debt : Z;
  total_collateral_base : Z;
  total_collateral_quote : Z;
  current_time : Z;
  last_update : Z;
  price_oracle : Ema.PriceOracle;
  cf_calculator : CF.CollateralFactorCalculator;
  liquidation_engine : Liq.LiquidationEngine;
  positions : list BorrowerPosition;
  next_position_id : Z;
  state_history : list PoolState;
  liquidation_events : list LiquidationEvent
}.

(** Assignments to the attributes of the pool. *)
Definition set_reserves (self : GAMMPool) (rb rq : Z) : GAMMPool :=
  {| config := config self; reserve_base := rb; reserve_quote := rq;
     total_debt := total_debt self;
     total_collateral_base := total_collateral_base self;
     total_collateral_quote := total_collateral_quote self;
     current_time := current_time self; last_update := last_update self;
     price_oracle := price_oracle self; cf_calculator := cf_calculator self;
     liquidation_engine := liquidation_engine self;
     positions := positions self;
     next_position_id := next_position_id self;
     state_history := state_history self;
     liquidation_events := liquidation_events self |}.

Definition set_totals (self : GAMMPool) (debt collateral : Z) : GAMMPool :=
  {| config := config self; reserve_base := reserve_base self;
     reserve_quote := reserve_quote self;
     total_debt := debt; total_collateral_base := collateral;
     total_collateral_quote := total_collateral_quote self;
     current_time := current_time self; last_update := last_update self;
     price_oracle := price_oracle self; cf_calculator := cf_calculator self;
     liquidation_engine := liquidation_engine self;
     positions := positions self;
     next_position_id := next_position_id self;
     state_history := state_history self;
     liquidation_events := liquidation_events self |}.

Definition set_times (self : GAMMPool) (now updated : Z) : GAMMPool :=
  {| config := config self; reserve_base := reserve_base self;
     reserve_quote := reserve_quote self;
     total_debt := total_debt self;
     total_collateral_base := total_collateral_base self;
     total_collateral_quote := total_collateral_quote self;
     current_time := now; last_update := updated;
     price_oracle := price_oracle self; cf_calculator := cf_calculator self;
     liquidation_engine := liquidation_engine self;
     positions := positions self;
     next_position_id := next_position_id self;
     state_history := state_history self;
     liquidation_events := liquidation_events self |}.

Definition set_price_oracle (self : GAMMPool) (o : Ema.PriceOracle) : GAMMPool :=
  {| config := config self; reserve_base := reserve_base self;
     reserve_quote := reserve_quote self;
     total_debt := total_debt self;
     total_collateral_base := total_collateral_base self;
     total_collateral_quote := total_collateral_quote self;
     current_time := current_time self; last_update := last_update self;
     price_oracle := o; cf_calculator := cf_calculator self;
     liquidation_engine := liquidation_engine self;
     positions := positions self;
     next_position_id := next_position_id self;
     state_history := state_history self;
     liquidation_events := liquidation_events self |}.

Definition set_liquidation_engine (self : GAMMPool) (e : Liq.LiquidationEngine)
  : GAMMPool :=
  {| config := config self; reserve_base := reserve_base self;
     reserve_quote := reserve_quote self;
     total_debt := total_debt self;
     total_collateral_base := total_collateral_base self;
     total_collateral_quote := total_collateral_quote self;
     current_time := current_time self; last_update := last_update self;
     price_oracle := price_oracle self; cf_calculator := cf_calculator self;
     liquidation_engine := e;
     positions := positions self;
     next_position_id := next_position_id self;
     state_history := state_history self;
     liquidation_events := liquidation_events self |}.

Definition set_positions (self : GAMMPool) (ps : list BorrowerPosition)
    (next : Z) : GAMMPool :=
  {| config := config self; reserve_base := reserve_base self;
     reserve_quote := reserve_quote self;
     total_debt := total_debt self;
     total_collateral_base := total_collateral_base self;
     total_collateral_quote := total_collateral_quote self;
     current_time := current_time self; last_update := last_update self;
     price_oracle := price_oracle self; cf_calculator := cf_calculator self;
     liquidation_engine := liquidation_engine self;
     positions := ps;
     next_position_id := next;
     state_history := state_history self;
     liquidation_events := liquidation_events self |}.

Definition set_histories (self : GAMMPool) (states : list PoolState)
    (events : list LiquidationEvent) : GAMMPool :=
  {| config := config self; reserve_base := reserve_base self;
     reserve_quote := reserve_quote self;
     total_debt := total_debt self;
     total_collateral_base := total_collateral_base self;
     total_collateral_quote := total_collateral_quote self;
     current_time := current_time self; last_update := last_update self;
     price_oracle := price_oracle self; cf_calculator := cf_calculator self;
     liquidation_engine := liquidation_engine self;
     positions := positions self;
     next_position_id := next_position_id self;
     state_history := states;
     liquidation_events := events |}.

Definition get_spot_price (self : GAMMPool) : Z :=
  if reserve_base self =? 0 then 0
  else (reserve_quote self * NAD) / reserve_base self.

Definition update_reserves_from_price (self : GAMMPool) (new_price : Z)
  : GAMMPool :=
  set_reserves self (reserve_base self) ((reserve_base self * new_price) / NAD).

(** The fields of a position after the liquidation [l] at [timestamp]. *)
Definition liquidate (position : BorrowerPosition) (timestamp lending_price : Z)
    (l : Liq.Liquidation) : BorrowerPosition :=
  {| id := id position;
     collateral_amount := Liq.remaining_collateral l;
     debt_amount := Liq.remaining_debt l;
     entry_price := entry_price position;
     entry_time := entry_time position;
     liquidated := true;
     liquidation_time := Some timestamp;
     liquidation_price := Some lending_price;
     bad_debt_accrued := Liq.bad_debt l |}.

Section WithExp.

Variable math_exp : PyFloat.float -> PyFloat.float.

Definition GAMMPool_init (config : SimulationConfig)
    (initial_reserve_base initial_reserve_quote initial_timestamp : Z)
  : result GAMMPool :=
  oracle <- Ema.PriceOracle_init (ema_enabled config)
              (if ema_enabled config then Config.half_life config else 60) ;;
  calc <- CF.CollateralFactorCalculator_init
            (dynamic_cf_enabled config) (pessimistic_cap_enabled config)
            (ltv_buffer_enabled config) (Config.fixed_cf_bps config)
            (Config.max_cf_bps config) ;;
  let self :=
    {| config := config;
       reserve_base := initial_reserve_base;
       reserve_quote := initial_reserve_quote;
       total_debt := 0;
       total_collateral_base := 0;
       total_collateral_quote := 0;
       current_time := initial_timestamp;
       last_update := initial_timestamp;
       price_oracle := oracle;
       cf_calculator := calc;
       liquidation_engine :=
         Liq.LiquidationEngine_init (Config.close_factor_bps config)
           (Config.liquidation_incentive_bps config)
           (partial_liquidation_enabled config);
       positions := [];
       next_position_id := 1;
       state_history := [];
       liquidation_events := [] |} in
  let initial_spot := get_spot_price self in
  '(oracle', _) <- Ema.get_price math_exp (price_oracle self) initial_spot
                     initial_timestamp ;;
  Ok (set_price_oracle self oracle').

Definition get_lending_price (self : GAMMPool) (timestamp : Z)
  : result (GAMMPool * Z) :=
  let spot := get_spot_price self in
  '(oracle', p) <- Ema.get_price math_exp (price_oracle self) spot timestamp ;;
  Ok (set_price_oracle self oracle', p).

(** [target_ltv] is a float; the new position is the last of
    [positions] of the returned pool. *)
Definition create_position (self : GAMMPool) (collateral_amount : Z)
    (target_ltv : PyFloat.float) (timestamp : Z)
  : result (GAMMPool * BorrowerPosition) :=
  '(self, lending_price) <- get_lending_price self timestamp ;;
  let spot_price := get_spot_price self in
  '(max_borrow, max_cf_bps, liq_cf_bps) <-
    CF.calculate (cf_calculator self) collateral_amount lending_price
      spot_price (reserve_quote self) ;;
  max_borrow_f <- PyFloat.of_int max_borrow ;;
  actual_borrow <- PyFloat.to_int (PyFloat.mul max_borrow_f target_ltv) ;;
  let position :=
    {| id := next_position_id self;
       collateral_amount := collateral_amount;
       debt_amount := actual_borrow;
       entry_price := lending_price;
       entry_time := timestamp;
       liquidated := false;
       liquidation_time := None;
       liquidation_price := None;
       bad_debt_accrued := 0 |} in
  let self := set_positions self (positions self ++ [position])
                (next_position_id self + 1) in
  let self := set_totals self (total_debt self + actual_borrow)
                (total_collateral_base self + collateral_amount) in
  let self := set_reserves self (reserve_base self)
                (Z.max 0 (reserve_quote self - actual_borrow)) in
  Ok (self, position).

(** The body of the loop of [check_liquidations] for one position: the
    pool (all but [positions]), the position and the events of this
    position. *)
Definition check_position (timestamp lending_price spot_price : Z)
    (self : GAMMPool) (position : BorrowerPosition)
  : result (GAMMPool * BorrowerPosition * list LiquidationEvent) :=
  if liquidated position then Ok (self, position, []) else
  '(_, _, liq_cf_bps) <-
    CF.calculate (cf_calculator self) (collateral_amount position)
      lending_price spot_price (reserve_quote self) ;;
  '(engine, res) <-
    Liq.check_and_liquidate (liquidation_engine self)
      (collateral_amount position) lending_price (debt_amount position)
      liq_cf_bps ;;
  let self := set_liquidation_engine self engine in
  match res with
  | Liq.NotLiquidatable _ => Ok (self, position, [])
  | Liq.Liquidatable l =>
      let position := liquidate position timestamp lending_price l in
      let self := set_totals self (total_debt self - Liq.debt_to_repay l)
                    (total_collateral_base self - Liq.collateral_seized l) in
      let self := set_reserves self
                    (reserve_base self + Liq.collateral_to_reserves l)
                    (reserve_quote self) in
      let self := set_reserves self (reserve_base self)
                    (reserve_quote self + Liq.debt_to_repay l) in
      let event :=
        {| ev_timestamp := timestamp;
           ev_position_id := id position;
           ev_price := lending_price;
           ev_spot_price := spot_price;
           ev_ema_price :=
             if ema_enabled (config self) then lending_price else spot_price;
           ev_result := l |} in
      let self := set_histories self (state_history self)
                    (liquidation_events self ++ [event]) in
      Ok (self, position, [event])
  end.

(** The loop [for position in self.positions]. *)
Fixpoint check_positions (timestamp lending_price spot_price : Z)
    (self : GAMMPool) (ps : list BorrowerPosition)
  : result (GAMMPool * list BorrowerPosition * list LiquidationEvent) :=
  match ps with
  | [] => Ok (self, [], [])
  | position :: rest =>
      '(self, position', evs) <-
        check_position timestamp lending_price spot_price self position ;;
      '(self, rest', evs') <-
        check_positions timestamp lending_price spot_price self rest ;;
      Ok (self, position' :: rest', evs ++ evs')
  end.

Definition check_liquidations (self : GAMMPool) (timestamp : Z)
  : result (GAMMPool * list LiquidationEvent) :=
  '(self, lending_price) <- get_lending_price self timestamp ;;
  let spot_price := get_spot_price self in
  '(self, ps, liquidations) <-
    check_positions timestamp lending_price spot_price self (positions self) ;;
  Ok (set_positions self ps (next_position_id self), liquidations).

(** The loop of [step] that sums the liquidation CF of the active
    positions. *)
Fixpoint sum_liq_cf (self : GAMMPool) (lending_price spot_price : Z)
    (active : list BorrowerPosition) (total_cf : Z) : result Z :=
  match active with
  | [] => Ok total_cf
  | pos :: rest =>
      '(_, _, liq_cf) <-
        CF.calculate (cf_calculator self) (collateral_amount pos)
          lending_price spot_price (reserve_quote self) ;;
      sum_liq_cf self lending_price spot_price rest (total_cf + liq_cf)
  end.

Definition step (self : GAMMPool) (new_price timestamp : Z)
  : result (GAMMPool * PoolState) :=
  let self := set_times self timestamp (last_update self) in
  let self := update_reserves_from_price self new_price in
  '(self, lending_price) <- get_lending_price self timestamp ;;
  let spot_price := get_spot_price self in
  '(self, _) <- check_liquidations self timestamp ;;
  let active_positions :=
    filter (fun p => negb (liquidated p)) (positions self) in
  avg_cf <-
    match active_positions with
    | [] => Ok 0
    | _ =>
        total_cf <- sum_liq_cf self lending_price spot_price
                      active_positions 0 ;;
        Ok (total_cf / Z.of_nat (List.length active_positions))
    end ;;
  let total_collateral_value :=
    (total_collateral_base self * lending_price) / NAD in
  let protocol_health :=
    if 0 <? total_debt self
    then ((total_collateral_value - total_debt self) * 100) / total_debt self
    else 999 in
  let state :=
    {| ps_timestamp := timestamp;
       ps_reserve_base := reserve_base self;
       ps_reserve_quote := reserve_quote self;
       ps_total_debt := total_debt self;
       ps_total_collateral := total_collateral_base self;
       ps_spot_price := spot_price;
       ps_ema_price := lending_price;
       ps_average_cf_bps := avg_cf;
       ps_active_positions := Z.of_nat (List.length active_positions);
       ps_total_bad_debt := Liq.total_bad_debt (liquidation_engine self);
       ps_protocol_health_pct := protocol_health |} in
  let self := set_histories self (state_history self ++ [state])
                (liquidation_events self) in
  let self := set_times self (current_time self) timestamp in
  Ok (self, state).

(** The loop [for timestamp, price in price_data[1:]: pool.step(price,
    timestamp)] of [simulate_scenario]. *)
Fixpoint run_steps (self : GAMMPool) (price_data : list (Z * Z))
  : result GAMMPool :=
  match price_data with
  | [] => Ok self
  | (timestamp, price) :: rest =>
      '(self, _) <- step self price timestamp ;;
      run_steps self rest
  end.

(** A borrower dictionary of [simulate_scenario]; both keys are optional. *)
Record Borrower : Type := {
  collateral : option Z;
  ltv : option PyFloat.float
}.

(** The float 0.75, the default of the key ["ltv"]. *)
Definition default_ltv : PyFloat.float :=
  S754_finite false 6755399441055744 (-53).

(** The loop [for i, borrower in enumerate(borrower_positions)] of
    [simulate_scenario], which opens one position per borrower. *)
Fixpoint open_positions (self : GAMMPool) (initial_base initial_timestamp : Z)
    (borrower_positions : list Borrower) : result GAMMPool :=
  match borrower_positions with
  | [] => Ok self
  | borrower :: rest =>
      '(self, _) <-
        create_position self
          (default (initial_base / 10) (collateral borrower))
          (default default_ltv (ltv borrower))
          initial_timestamp ;;
      open_positions self initial_base initial_timestamp rest
  end.

End WithExp.

(** The dictionary of [GAMMPool.get_statistics]. *)
Record PoolStatistics : Type := {
  stat_config_name : string;
  stat_total_positions : Z;
  stat_active_positions : Z;
  stat_liquidated_positions : Z;
  stat_total_borrowed : Z;
  stat_total_bad_debt : Z;
  stat_bad_debt_rate_bps : Z;
  stat_total_liquidations : Z;
  stat_protocol_health_final : Z;
  stat_liquidation_events : Z
}.

(** [sum(...)] over a list of integers. *)
Definition sum (l : list Z) : Z := fold_left Z.add l 0.

Definition get_statistics (self : GAMMPool) : PoolStatistics :=
  let active_positions :=
    filter (fun p => negb (liquidated p)) (positions self) in
  let liquidated_positions :=
    filter (fun p => liquidated p) (positions self) in
  let total_borrowed := sum (map debt_amount (positions self)) in
  {| stat_config_name := name (config self);
     stat_total_positions := Z.of_nat (List.length (positions self));
     stat_active_positions := Z.of_nat (List.length active_positions);
     stat_liquidated_positions := Z.of_nat (List.length liquidated_positions);
     stat_total_borrowed := total_borrowed;
     stat_total_bad_debt := Liq.total_bad_debt (liquidation_engine self);
     stat_bad_debt_rate_bps :=
       if 0 <? total_borrowed
       then (Liq.total_bad_debt (liquidation_engine self) * BPS_DENOMINATOR)
            / total_borrowed
       else 0;
     stat_total_liquidations :=
       Liq.total_liquidations (liquidation_engine self);
     stat_protocol_health_final :=
       match rev (state_history self) with
       | last :: _ => ps_protocol_health_pct last
       | [] => 0
       end;
     stat_liquidation_events :=
       Z.of_nat (List.length (liquidation_events self)) |}.

End Pool.

(** ** Definitions used by the statements *)

(** A stand-in for [math.exp] on paths that never evaluate it: a NaN
    would surface as a [ValueError] of [int()]. *)
Definition exp_not_evaluated (x : PyFloat.float) : PyFloat.float := S754_nan.

(** The float 0.75. *)
Definition three_quarters : PyFloat.float :=
  S754_finite false 6755399441055744 (-53).

(** A run of the traditional preset (EMA disabled, fixed CF 7500, close
    factor 5000): a pool of 1000 by 1000 at price 1.0, one position of 100
    tokens opened at 75% of the allowed debt, then a step to the price 0.7
    at time 60 and a step to the price 0.3 at time 120.  The result is the
    opened position and the pool after each of the two steps. *)
Definition partial_liquidation_run
  : result (Pool.BorrowerPosition * Pool.GAMMPool * Pool.GAMMPool) :=
  pool <- Pool.GAMMPool_init exp_not_evaluated Config.TRADITIONAL_LENDING
            (1000 * Config.NAD) (1000 * Config.NAD) 0 ;;
  '(pool, opened) <- Pool.create_position exp_not_evaluated pool
                       (100 * Config.NAD) three_quarters 0 ;;
  '(after_first, _) <- Pool.step exp_not_evaluated pool 700000000 60 ;;
  '(after_second, _) <- Pool.step exp_not_evaluated after_first 300000000 120 ;;
  Ok (opened, after_first, after_second).

(** What one pass of [check_liquidations] at [timestamp] does to a
    position, for an engine with the given close factor and incentive: a
    liquidated position is skipped; any other position is evaluated at some
    lending price and liquidation CF, and is replaced by its liquidated
    remainder as soon as the result is liquidatable. *)
Definition checked (close_factor_bps liquidation_incentive_bps timestamp : Z)
    (p p' : Pool.BorrowerPosition) : Prop :=
  (Pool.liquidated p = true -> p' = p) /\
  (Pool.liquidated p = false ->
   exists lending_price liq_cf_bps res,
     Liq.calculate_liquidation (Pool.collateral_amount p) lending_price
       (Pool.debt_amount p) liq_cf_bps close_factor_bps
       liquidation_incentive_bps = Ok res /\
     p' = match res with
          | Liq.NotLiquidatable _ => p
          | Liq.Liquidatable l => Pool.liquidate p timestamp lending_price l
          end).

Definition same_terms (e e' : Liq.LiquidationEngine) : Prop :=
  Liq.close_factor_bps e' = Liq.close_factor_bps e /\
  Liq.liquidation_incentive_bps e' = Liq.liquidation_incentive_bps e.

(** The pool, the lending price and the spot price with which the loop of
    [check_liquidations] starts when [step] calls it: [step] sets the time
    and the reserves and reads the lending price, then
    [check_liquidations] reads the lending price once more and takes the
    spot price. *)
Definition step_check_start (math_exp : PyFloat.float -> PyFloat.float)
    (self : Pool.GAMMPool) (new_price timestamp : Z)
  : result (Pool.GAMMPool * Z * Z) :=
  let self := Pool.set_times self timestamp (Pool.last_update self) in
  let self := Pool.update_reserves_from_price self new_price in
  '(self, _) <- Pool.get_lending_price math_exp self timestamp ;;
  '(self, lending_price) <- Pool.get_lending_price math_exp self timestamp ;;
  Ok (self, lending_price, Pool.get_spot_price self).

(** The pool states that the public operations of [GAMMPool] can produce:
    the constructor, [create_position], [step], [check_liquidations],
    [get_lending_price] and [update_reserves_from_price]. *)
Inductive reachable (math_exp : PyFloat.float -> PyFloat.float)
  : Pool.GAMMPool -> Prop :=
| reach_init (cfg : Config.SimulationConfig) (rb rq ts : Z)
    (pool : Pool.GAMMPool) :
    Pool.GAMMPool_init math_exp cfg rb rq ts = Ok pool ->
    reachable math_exp pool
| reach_create_position (pool pool' : Pool.GAMMPool) (collateral_amount : Z)
    (target_ltv : PyFloat.float) (timestamp : Z)
    (position : Pool.BorrowerPosition) :
    reachable math_exp pool ->
    Pool.create_position math_exp pool collateral_amount target_ltv timestamp
    = Ok (pool', position) ->
    reachable math_exp pool'
| reach_step (pool pool' : Pool.GAMMPool) (new_price timestamp : Z)
    (state : Pool.PoolState) :
    reachable math_exp pool ->
    Pool.step math_exp pool new_price timestamp = Ok (pool', state) ->
    reachable math_exp pool'
| reach_check_liquidations (pool pool' : Pool.GAMMPool) (timestamp : Z)
    (events : list Pool.LiquidationEvent) :
    reachable math_exp pool ->
    Pool.check_liquidations math_exp pool timestamp = Ok (pool', events) ->
    reachable math_exp pool'
| reach_get_lending_price (pool pool' : Pool.GAMMPool) (timestamp price : Z) :
    reachable math_exp pool ->
    Pool.get_lending_price math_exp pool timestamp = Ok (pool', price) ->
    reachable math_exp pool'
| reach_update_reserves (pool : Pool.GAMMPool) (new_price : Z) :
    reachable math_exp pool ->
    reachable math_exp (Pool.update_reserves_from_price pool new_price).

(** The number of positions marked liquidated. *)
Definition liquidated_count (ps : list Pool.BorrowerPosition) : Z :=
  Z.of_nat (List.length (filter Pool.liquidated ps)).

(** The aggregates of the pool are the sums over its positions. *)
Definition books_balance (pool : Pool.GAMMPool) : Prop :=
  Pool.total_debt pool = Pool.sum (map Pool.debt_amount (Pool.positions pool)) /\
  Pool.total_collateral_base pool
  = Pool.sum (map Pool.collateral_amount (Pool.positions pool)).

(** The counters of the liquidation engine, the event list and the flags of
    the positions tell the same story. *)
Definition liquidations_counted (pool : Pool.GAMMPool) : Prop :=
  Liq.total_liquidations (Pool.liquidation_engine pool)
  = Z.of_nat (List.length (Pool.liquidation_events pool)) /\
  liquidated_count (Pool.positions pool)
  = Z.of_nat (List.length (Pool.liquidation_events pool)) /\
  Liq.total_bad_debt (Pool.liquidation_engine pool)
  = Pool.sum (map (fun ev => Liq.bad_debt (Pool.ev_result ev))
                  (Pool.liquidation_events pool)) /\
  Liq.total_liquidated_debt (Pool.liquidation_engine pool)
  = Pool.sum (map (fun ev => Liq.debt_to_repay (Pool.ev_result ev))
                  (Pool.liquidation_events pool)).

(** Positions are numbered 1, 2, ... in the order they were opened. *)
Definition ids_in_order (pool : Pool.GAMMPool) : Prop :=
  Pool.next_position_id pool = Z.of_nat (List.length (Pool.positions pool)) + 1 /\
  forall (i : nat) (p : Pool.BorrowerPosition),
    nth_error (Pool.positions pool) i = Some p -> Pool.id p = Z.of_nat i + 1.

(** The components of the pool are the ones its configuration asks for. *)
Definition wired_as_configured (pool : Pool.GAMMPool) : Prop :=
  Pool.cf_calculator pool
  = {| CF.use_dynamic_cf := Config.dynamic_cf_enabled (Pool.config pool);
       CF.use_pessimistic_cap := Config.pessimistic_cap_enabled (Pool.config pool);
       CF.use_ltv_buffer := Config.ltv_buffer_enabled (Pool.config pool);
       CF.fixed_cf_bps := Config.fixed_cf_bps (Pool.config pool);
       CF.max_cf_bps := Config.max_cf_bps (Pool.config pool) |} /\
  Liq.close_factor_bps (Pool.liquidation_engine pool)
  = (if Config.partial_liquidation_enabled (Pool.config pool)
     then Config.close_factor_bps (Pool.config pool) else 10000) /\
  Liq.liquidation_incentive_bps (Pool.liquidation_engine pool)
  = Config.liquidation_incentive_bps (Pool.config pool) /\
  Ema.use_ema (Pool.price_oracle pool) = Config.ema_enabled (Pool.config pool) /\
  (Config.ema_enabled (Pool.config pool) = false ->
   Ema.ema_engine (Pool.price_oracle pool) = None).

(** What a pass of [check_liquidations] over the positions [ps] does: the
    pool goes from [self] to [self'], the positions become [ps'] and the
    events [evs] are recorded. *)
Definition pass_effect (self self' : Pool.GAMMPool)
    (ps ps' : list Pool.BorrowerPosition) (evs : list Pool.LiquidationEvent)
  : Prop :=
  let repaid := Pool.sum (map (fun ev => Liq.debt_to_repay (Pool.ev_result ev)) evs) in
  let e := Pool.liquidation_engine self in
  let e' := Pool.liquidation_engine self' in
  Pool.config self' = Pool.config self /\
  Pool.cf_calculator self' = Pool.cf_calculator self /\
  Pool.price_oracle self' = Pool.price_oracle self /\
  Pool.next_position_id self' = Pool.next_position_id self /\
  Pool.state_history self' = Pool.state_history self /\
  Pool.current_time self' = Pool.current_time self /\
  Pool.last_update self' = Pool.last_update self /\
  Pool.positions self' = Pool.positions self /\
  same_terms e e' /\
  map Pool.id ps' = map Pool.id ps /\
  Pool.liquidation_events self' = Pool.liquidation_events self ++ evs /\
  Z.of_nat (List.length evs) = liquidated_count ps' - liquidated_count ps /\
  Liq.total_liquidations e' = Liq.total_liquidations e + Z.of_nat (List.length evs) /\
  Liq.total_bad_debt e'
  = Liq.total_bad_debt e
    + Pool.sum (map (fun ev => Liq.bad_debt (Pool.ev_result ev)) evs) /\
  Liq.total_liquidated_debt e' = Liq.total_liquidated_debt e + repaid /\
  Pool.total_debt self' = Pool.total_debt self - repaid /\
  Pool.sum (map Pool.debt_amount ps')
  = Pool.sum (map Pool.debt_amount ps) - repaid /\
  Pool.total_collateral_base self' - Pool.sum (map Pool.collateral_amount ps')
  = Pool.total_collateral_base self - Pool.sum (map Pool.collateral_amount ps) /\
  Pool.reserve_base self <= Pool.reserve_base self' /\
  Pool.reserve_quote self' = Pool.reserve_quote self + repaid.

(** The invariant of the pool. *)
Definition pool_invariant (pool : Pool.GAMMPool) : Prop :=
  books_balance pool /\ liquidations_counted pool /\ ids_in_order pool /\
  wired_as_configured pool.

(** * Properties *)

Import Config.


(** ** The pessimistic cap (C3) *)

Lemma pessimistic_cf_range (base spot ema : Z) :
  100 <= CF.get_pessimistic_cf_bps base spot ema <= MAX_COLLATERAL_FACTOR_BPS.
Proof.
  unfold CF.get_pessimistic_cf_bps, MAX_COLLATERAL_FACTOR_BPS.
  destruct (ema =? 0); lia.
Qed.

Lemma shrunk_cf_ge_base (base spot ema : Z) :
  0 < ema -> ema <= spot -> 0 <= base -> base <= (spot * base) / ema.
Proof.
  intros Hema Hspot Hbase.
  apply Z.div_le_lower_bound; [ exact Hema | nia ].
Qed.

(** The cap broken by the clamp to [100, 8500]: a base CF of 9998 bps (the
    dynamic CF of a deep pool) with spot equal to EMA is cut to 8500, and a
    base CF of 50 bps is raised to the floor of 100. *)
Lemma pessimistic_cf_clamp_counterexample :
  NAD >= NAD /\
  CF.get_pessimistic_cf_bps 9998 NAD NAD = 8500 /\
  CF.get_pessimistic_cf_bps 9998 NAD NAD <> 9998 /\
  NAD <= NAD /\
  CF.get_pessimistic_cf_bps 50 NAD NAD = 100 /\
  ~ CF.get_pessimistic_cf_bps 50 NAD NAD <= 50.
Proof. repeat split; vm_compute; congruence. Qed.

(** C3 (amended).  For a positive EMA price the pessimistic CF never exceeds
    [max 100 base]; with spot at or above the EMA it is the base CF clamped
    to [100, 8500].  For a base CF inside [100, 8500] it is therefore at
    most the base CF for every spot price, and equal to the base CF when
    spot >= ema. *)
Theorem pessimistic_cf_never_above_base (base spot ema : Z) :
  0 < ema ->
  CF.get_pessimistic_cf_bps base spot ema <= Z.max 100 base /\
  (ema <= spot ->
   CF.get_pessimistic_cf_bps base spot ema
   = Z.min MAX_COLLATERAL_FACTOR_BPS (Z.max 100 base)) /\
  (100 <= base <= MAX_COLLATERAL_FACTOR_BPS ->
   CF.get_pessimistic_cf_bps base spot ema <= base /\
   (ema <= spot -> CF.get_pessimistic_cf_bps base spot ema = base)).
Proof.
  intros Hema.
  assert (Heq : ema <= spot ->
                CF.get_pessimistic_cf_bps base spot ema
                = Z.min MAX_COLLATERAL_FACTOR_BPS (Z.max 100 base)).
  { intros Hspot. unfold CF.get_pessimistic_cf_bps.
    destruct (Z.eqb_spec ema 0) as [E | _]; [ lia | ].
    destruct (Z.le_gt_cases 0 base) as [Hbase | Hbase].
    - pose proof (shrunk_cf_ge_base base spot ema Hema Hspot Hbase).
      rewrite (Z.min_l base) by assumption. reflexivity.
    - assert (spot * base / ema < 100)
        by (apply Z.div_lt_upper_bound; [ exact Hema | nia ]).
      lia. }
  assert (Hle : CF.get_pessimistic_cf_bps base spot ema <= Z.max 100 base).
  { unfold CF.get_pessimistic_cf_bps, MAX_COLLATERAL_FACTOR_BPS.
    destruct (ema =? 0); lia. }
  split; [ exact Hle | split; [ exact Heq | ] ].
  unfold MAX_COLLATERAL_FACTOR_BPS in *.
  intros Hrange. split; [ lia | intros Hspot; rewrite (Heq Hspot); lia ].
Qed.

Lemma pessimistic_cf_never_above_base_witness :
  CF.get_pessimistic_cf_bps 8000 1100000000 NAD <= 8000 /\
  CF.get_pessimistic_cf_bps 8000 1100000000 NAD = 8000.
Proof.
  destruct (pessimistic_cf_never_above_base 8000 1100000000 NAD)
    as [_ [_ H]]; [ reflexivity | ].
  destruct H as [Hle Heq]; [ split; discriminate | ].
  split; [ exact Hle | apply Heq; discriminate ].
Defined.

(** ** Conservation of seized collateral (C5) *)

Lemma calculate_liquidation_conservation
    (collateral_amount collateral_price debt_amount liquidation_cf_bps
     close_factor_bps liquidation_incentive_bps : Z) (l : Liq.Liquidation) :
  0 <= collateral_amount -> 0 < collateral_price -> 0 <= debt_amount ->
  0 <= close_factor_bps -> liquidation_incentive_bps <= BPS_DENOMINATOR ->
  Liq.calculate_liquidation collateral_amount collateral_price debt_amount
    liquidation_cf_bps close_factor_bps liquidation_incentive_bps
  = Ok (Liq.Liquidatable l) ->
  0 <= Liq.collateral_seized l /\
  Liq.collateral_seized l = Liq.liquidator_bonus l + Liq.collateral_to_reserves l.
Proof.
  intros Hc Hp Hd Hcf Hinc. unfold Liq.calculate_liquidation. cbv zeta.
  destruct (debt_amount <? _); [ discriminate | ].
  destruct (Z.eqb_spec collateral_price 0) as [E | _]; [ lia | ].
  intros H. injection H as <-. cbn [Liq.collateral_seized Liq.liquidator_bonus
                                     Liq.collateral_to_reserves].
  set (repay := if _ <? _ then debt_amount else _).
  assert (Hrepay : 0 <= repay).
  { subst repay. destruct (_ <? _); [ exact Hd | ].
    apply Z.min_glb; [ exact Hd | ].
    apply Z.div_pos; [ nia | reflexivity ]. }
  set (seized := Z.min (repay * NAD / collateral_price) collateral_amount).
  assert (Hseized : 0 <= seized).
  { subst seized. apply Z.min_glb; [ | exact Hc ].
    apply Z.div_pos; [ unfold NAD; nia | exact Hp ]. }
  assert (Hbonus : seized * liquidation_incentive_bps / BPS_DENOMINATOR <= seized).
  { apply Z.div_le_upper_bound; [ reflexivity | ].
    unfold BPS_DENOMINATOR in *. nia. }
  split; [ exact Hseized | lia ].
Qed.

(** C5.  For amounts and prices in their ranges (non-negative collateral and
    debt, a positive price, a non-negative close factor and an incentive of
    at most 10000 bps), every liquidation returned by the engine has
    [collateral_seized = liquidator_bonus + collateral_to_reserves]. *)
Theorem seized_collateral_is_conserved
    (self self' : Liq.LiquidationEngine)
    (collateral_amount collateral_price debt_amount liquidation_cf_bps : Z)
    (l : Liq.Liquidation) :
  0 <= collateral_amount -> 0 < collateral_price -> 0 <= debt_amount ->
  0 <= Liq.close_factor_bps self ->
  Liq.liquidation_incentive_bps self <= BPS_DENOMINATOR ->
  Liq.check_and_liquidate self collateral_amount collateral_price debt_amount
    liquidation_cf_bps = Ok (self', Liq.Liquidatable l) ->
  Liq.collateral_seized l = Liq.liquidator_bonus l + Liq.collateral_to_reserves l.
Proof.
  intros Hc Hp Hd Hcf Hinc H. unfold Liq.check_and_liquidate in H.
  bind_inv H. destruct a as [r | l']; [ discriminate H | ].
  injection H as _ E. subst l'.
  exact (proj2 (calculate_liquidation_conservation _ _ _ _ _ _ _
                  Hc Hp Hd Hcf Hinc Hm)).
Qed.

Lemma seized_collateral_is_conserved_witness :
  exists self' l,
    Liq.check_and_liquidate
      (Liq.LiquidationEngine_init CLOSE_FACTOR_BPS LIQUIDATION_INCENTIVE_BPS true)
      (1000 * NAD) NAD (900 * NAD) 8500 = Ok (self', Liq.Liquidatable l) /\
    Liq.debt_to_repay l = 450 * NAD /\
    Liq.collateral_seized l = Liq.liquidator_bonus l + Liq.collateral_to_reserves l.
Proof.
  eexists. eexists. split; [ vm_compute; reflexivity | ].
  split; [ reflexivity | ].
  eapply (seized_collateral_is_conserved
            (Liq.LiquidationEngine_init CLOSE_FACTOR_BPS LIQUIDATION_INCENTIVE_BPS true)
            _ (1000 * NAD) NAD (900 * NAD) 8500);
    [ discriminate | reflexivity | discriminate | discriminate | discriminate
    | vm_compute; reflexivity ].
Defined.

(** ** Zero collateral value and zero debt (C6) *)

Lemma is_liquidatable_zero_collateral (debt_amount liquidation_cf_bps : Z) :
  Liq.is_liquidatable 0 debt_amount liquidation_cf_bps = (0 <? debt_amount).
Proof. reflexivity. Qed.

Lemma calculate_liquidation_zero_zero
    (collateral_price liquidation_cf_bps close_factor_bps
     liquidation_incentive_bps : Z) :
  collateral_price <> 0 ->
  exists l,
    Liq.calculate_liquidation 0 collateral_price 0 liquidation_cf_bps
      close_factor_bps liquidation_incentive_bps = Ok (Liq.Liquidatable l).
Proof.
  intros Hp. unfold Liq.calculate_liquidation. cbn.
  destruct (Z.eqb_spec collateral_price 0) as [E | _]; [ contradiction | ].
  eexists. reflexivity.
Qed.

(** C6.  The engine on a position with no collateral and no debt, at a price
    of 1.0 and a liquidation CF of 8500 bps: [calculate_liquidation] reports
    it liquidatable and the engine counts a liquidation, although
    [is_liquidatable] on the same collateral value and debt answers no.
    With a price of zero and a positive debt the evaluation raises instead
    of reporting the position liquidatable. *)
Theorem zero_position_reported_liquidatable :
  (exists self' l,
     Liq.check_and_liquidate
       (Liq.LiquidationEngine_init CLOSE_FACTOR_BPS LIQUIDATION_INCENTIVE_BPS true)
       0 NAD 0 8500 = Ok (self', Liq.Liquidatable l) /\
     Liq.collateral_value l = 0 /\ Liq.debt_amount l = 0 /\
     Liq.total_liquidations self' = 1) /\
  Liq.is_liquidatable 0 0 8500 = false /\
  Liq.check_and_liquidate
    (Liq.LiquidationEngine_init CLOSE_FACTOR_BPS LIQUIDATION_INCENTIVE_BPS true)
    (100 * NAD) 0 (50 * NAD) 8500 = Raise ZeroDivisionError /\
  Liq.is_liquidatable ((100 * NAD * 0) / NAD) (50 * NAD) 8500 = true.
Proof.
  split; [ eexists; eexists; split; [ vm_compute; reflexivity | ] | ];
    repeat split; reflexivity.
Qed.

(** ** The EMA oracle without elapsed time (C7) *)

(** C7.  For an initialised engine ([last_ema <> 0]) and a call whose
    timestamp is not later than [last_update], [update] returns the stored
    [last_ema] and the state of the engine is unchanged; a second call at
    the same timestamp therefore does the same. *)
Theorem update_without_elapsed_time_is_idempotent
    (math_exp : PyFloat.float -> PyFloat.float) (self : Ema.EMAEngine)
    (current_spot_price current_time : Z) :
  Ema.last_ema self <> 0 ->
  current_time - Ema.last_update self <= 0 ->
  Ema.update math_exp self current_spot_price current_time
  = Ok (self, Ema.last_ema self).
Proof.
  intros Hinit Hdt. unfold Ema.update.
  destruct (Z.eqb_spec (Ema.last_ema self) 0) as [E | _]; [ contradiction | ].
  destruct (Z.leb_spec (current_time - Ema.last_update self) 0) as [_ | Hlt];
    [ reflexivity | lia ].
Qed.

Lemma update_without_elapsed_time_is_idempotent_witness :
  let self := {| Ema.half_life := 60; Ema.last_ema := NAD; Ema.last_update := 120 |} in
  Ema.update exp_not_evaluated self (2 * NAD) 120 = Ok (self, NAD) /\
  Ema.update exp_not_evaluated self (2 * NAD) 60 = Ok (self, NAD).
Proof.
  split.
  - apply (update_without_elapsed_time_is_idempotent exp_not_evaluated
             {| Ema.half_life := 60; Ema.last_ema := NAD; Ema.last_update := 120 |}
             (2 * NAD) 120); [ discriminate | discriminate ].
  - apply (update_without_elapsed_time_is_idempotent exp_not_evaluated
             {| Ema.half_life := 60; Ema.last_ema := NAD; Ema.last_update := 120 |}
             (2 * NAD) 60); [ discriminate | discriminate ].
Defined.

(** ** The square root of the solvency curve (C10) *)

(** C10.  For [v = 750000001] and [r1 = NAD] the scaled ratio is
    [a = 750000001] and the operand of the square root is
    [4000000004000000000 = 2000000001^2 - 1].  The float square root rounds
    to 2000000001.0, so the code's term is 2000000001 while the integer
    square root is 2000000000. *)
Theorem sqrt_term_is_not_the_integer_square_root :
  (750000001 * NAD) / NAD = 750000001 /\
  (4 * 750000001 + NAD) * NAD = 2000000001 * 2000000001 - 1 /\
  CF.sqrt_term_of (4 * 750000001 + NAD) = Ok 2000000001 /\
  Z.sqrt ((4 * 750000001 + NAD) * NAD) = 2000000000 /\
  CF.curve_y_from_v 750000001 NAD = Ok 333333333.
Proof. repeat split; vm_compute; reflexivity. Qed.

(** ** Monotonicity of the dynamic CF in the debt reserve (C8) *)

(** C8.  Collateral of 100 tokens at an EMA price of 1.0 (V = 100): a debt
    reserve of 1,000,000 gives 9998 bps, a reserve of 1,000,001 gives 9997
    bps, a reserve of 1e9 gives 9900 bps and a reserve of 1e11 gives 0. *)
Theorem dynamic_cf_is_not_monotone_in_debt_reserve :
  CF.calculate_dynamic_cf (100 * NAD) NAD (1000000 * NAD) = Ok 9998 /\
  CF.calculate_dynamic_cf (100 * NAD) NAD (1000001 * NAD) = Ok 9997 /\
  CF.calculate_dynamic_cf (100 * NAD) NAD (1000000000 * NAD) = Ok 9900 /\
  CF.calculate_dynamic_cf (100 * NAD) NAD (100000000000 * NAD) = Ok 0.
Proof. repeat split; vm_compute; reflexivity. Qed.

(** ** The default base CF (C9) *)

(** Construction with dynamic CF disabled and no fixed CF succeeds, and the
    calculator then works from the base CF 7500: at spot = EMA the
    liquidation CF is 7500 and the allowed CF 7000. *)
Lemma calculator_without_cf_source_is_constructed :
  exists c,
    CF.CollateralFactorCalculator_init false true true None
      MAX_COLLATERAL_FACTOR_BPS = Ok c /\
    CF.calculate c (100 * NAD) NAD NAD (1000000 * NAD)
    = Ok (70 * NAD, 7000, 7500).
Proof. eexists. split; reflexivity. Qed.

(** C9 (amended).  Constructing the calculator with dynamic CF disabled and
    no fixed CF succeeds for every choice of the other arguments; the base
    CF is then the constant 7500, and every calculation returns what a
    calculator configured with the fixed CF 7500 returns. *)
Theorem calculator_without_cf_source_defaults_to_7500
    (use_pessimistic_cap use_ltv_buffer : bool) (max_cf_bps : Z) :
  exists c,
    CF.CollateralFactorCalculator_init false use_pessimistic_cap use_ltv_buffer
      None max_cf_bps = Ok c /\
    forall collateral_amount collateral_ema_price collateral_spot_price
           debt_reserve : Z,
      CF.base_cf collateral_amount collateral_ema_price debt_reserve
        (CF.fixed_cf_bps c) (CF.use_dynamic_cf c) = Ok (Some 7500) /\
      CF.calculate c collateral_amount collateral_ema_price
        collateral_spot_price debt_reserve
      = CF.pessimistic_max_debt collateral_amount collateral_ema_price
          collateral_spot_price debt_reserve (Some 7500) false
          use_pessimistic_cap use_ltv_buffer.
Proof.
  eexists. split; [ reflexivity | ].
  intros ca ema spot dr. split; reflexivity.
Qed.

(** ** What the pool constructor wires together *)

Lemma set_price_oracle_fields (self : Pool.GAMMPool) (o : Ema.PriceOracle) :
  Pool.config (Pool.set_price_oracle self o) = Pool.config self /\
  Pool.cf_calculator (Pool.set_price_oracle self o) = Pool.cf_calculator self /\
  Pool.liquidation_engine (Pool.set_price_oracle self o)
  = Pool.liquidation_engine self /\
  Pool.positions (Pool.set_price_oracle self o) = Pool.positions self.
Proof. repeat split. Qed.

Lemma GAMMPool_init_components
    (math_exp : PyFloat.float -> PyFloat.float) (cfg : SimulationConfig)
    (rb rq ts : Z) (pool : Pool.GAMMPool) :
  Pool.GAMMPool_init math_exp cfg rb rq ts = Ok pool ->
  Pool.config pool = cfg /\
  Pool.cf_calculator pool
  = {| CF.use_dynamic_cf := dynamic_cf_enabled cfg;
       CF.use_pessimistic_cap := pessimistic_cap_enabled cfg;
       CF.use_ltv_buffer := ltv_buffer_enabled cfg;
       CF.fixed_cf_bps := fixed_cf_bps cfg;
       CF.max_cf_bps := max_cf_bps cfg |} /\
  Pool.positions pool = [].
Proof.
  unfold Pool.GAMMPool_init. intros H.
  bind_inv H. bind_inv H. injection Hm0 as <-.
  bind_inv H. destruct a0 as [oracle' p]. injection H as <-.
  repeat split.
Qed.

(** ** Dynamic CF through the pool (C1) *)

Lemma config_without_fixed_cf_argument (kw : SimulationConfigArgs) :
  arg_fixed_cf_bps kw = None ->
  fixed_cf_bps (SimulationConfig_init kw) = Some 7500.
Proof. intros H. unfold SimulationConfig_init. cbn. rewrite H. reflexivity. Qed.

(** Whatever [dynamic_cf_enabled] says, a pool whose configuration carries
    a fixed CF uses it as base CF, for every position and every reserve. *)
Lemma pool_base_cf_is_the_configured_fixed_cf
    (math_exp : PyFloat.float -> PyFloat.float) (cfg : SimulationConfig)
    (rb rq ts fixed : Z) (pool : Pool.GAMMPool)
    (collateral_amount collateral_ema_price debt_reserve : Z) :
  Pool.GAMMPool_init math_exp cfg rb rq ts = Ok pool ->
  fixed_cf_bps cfg = Some fixed ->
  CF.base_cf collateral_amount collateral_ema_price debt_reserve
    (CF.fixed_cf_bps (Pool.cf_calculator pool))
    (CF.use_dynamic_cf (Pool.cf_calculator pool)) = Ok (Some fixed).
Proof.
  intros Hinit Hfixed.
  destruct (GAMMPool_init_components _ _ _ _ _ _ Hinit) as [_ [-> _]].
  cbn. rewrite Hfixed. reflexivity.
Qed.

(** With [fixed_cf_bps] explicitly [None] and dynamic CF enabled the base
    CF does come from the solvency curve. *)
Lemma pool_base_cf_is_dynamic_without_fixed_cf
    (math_exp : PyFloat.float -> PyFloat.float) (cfg : SimulationConfig)
    (rb rq ts : Z) (pool : Pool.GAMMPool)
    (collateral_amount collateral_ema_price debt_reserve : Z) :
  Pool.GAMMPool_init math_exp cfg rb rq ts = Ok pool ->
  fixed_cf_bps cfg = None ->
  dynamic_cf_enabled cfg = true ->
  debt_reserve <> 0 ->
  CF.base_cf collateral_amount collateral_ema_price debt_reserve
    (CF.fixed_cf_bps (Pool.cf_calculator pool))
    (CF.use_dynamic_cf (Pool.cf_calculator pool))
  = (cf <- CF.calculate_dynamic_cf collateral_amount collateral_ema_price
             debt_reserve ;;
     Ok (Some cf)).
Proof.
  intros Hinit Hfixed Hdyn Hreserve.
  destruct (GAMMPool_init_components _ _ _ _ _ _ Hinit) as [_ [-> _]].
  cbn. rewrite Hfixed, Hdyn. unfold CF.base_cf.
  destruct (Z.eqb_spec debt_reserve 0) as [E | _]; [ contradiction | ].
  reflexivity.
Qed.

(** C1.  The preset [ONLY_DYNAMIC_CF] enables dynamic CF and passes no
    [fixed_cf_bps]; the configuration nevertheless holds the default 7500,
    which the pool hands to its calculator.  On a pool of 1,000,000 by
    1,000,000 a position of 100 tokens opened at the full allowed LTV
    borrows 75 (7500 bps), and the liquidation CF is 7500 both for that
    reserve and for a reserve of 200, while the solvency curve gives 9998
    bps and 5358 bps. *)
Theorem dynamic_cf_preset_takes_the_fixed_cf :
  dynamic_cf_enabled ONLY_DYNAMIC_CF = true /\
  exists pool pool' position,
    Pool.GAMMPool_init exp_not_evaluated ONLY_DYNAMIC_CF
      (1000000 * NAD) (1000000 * NAD) 0 = Ok pool /\
    CF.use_dynamic_cf (Pool.cf_calculator pool) = true /\
    CF.fixed_cf_bps (Pool.cf_calculator pool) = Some 7500 /\
    Pool.create_position exp_not_evaluated pool (100 * NAD) PyFloat.one 0
    = Ok (pool', position) /\
    Pool.debt_amount position = 75 * NAD /\
    CF.calculate (Pool.cf_calculator pool) (100 * NAD) NAD NAD (1000000 * NAD)
    = Ok (75 * NAD, 7500, 7500) /\
    CF.calculate (Pool.cf_calculator pool) (100 * NAD) NAD NAD (200 * NAD)
    = Ok (75 * NAD, 7500, 7500) /\
    CF.calculate_dynamic_cf (100 * NAD) NAD (1000000 * NAD) = Ok 9998 /\
    CF.calculate_dynamic_cf (100 * NAD) NAD (200 * NAD) = Ok 5358.
Proof.
  split; [ reflexivity | ].
  eexists. eexists. eexists.
  split; [ vm_compute; reflexivity | ].
  split; [ reflexivity | ].
  split; [ reflexivity | ].
  split; [ vm_compute; reflexivity | ].
  repeat split; vm_compute; reflexivity.
Qed.

(** ** The LTV buffer (C4) *)

Lemma pessimistic_max_debt_buffer_gap
    (collateral_amount collateral_ema_price collateral_spot_price
     debt_reserve : Z) (fixed : option Z) (use_dynamic use_cap : bool)
    (max_borrow max_allowed_cf_bps liquidation_cf_bps : Z) :
  CF.pessimistic_max_debt collateral_amount collateral_ema_price
    collateral_spot_price debt_reserve fixed use_dynamic use_cap true
  = Ok (max_borrow, max_allowed_cf_bps, liquidation_cf_bps) ->
  max_allowed_cf_bps = Z.max 0 (liquidation_cf_bps - LTV_BUFFER_BPS).
Proof.
  unfold CF.pessimistic_max_debt.
  destruct (_ || _); [ intros H; injection H as <- <- <-; reflexivity | ].
  intros H. bind_inv H.
  destruct a as [base | ]; injection H as <- <- <-; reflexivity.
Qed.

(** The gap is not the buffer when the liquidation CF is below it: with the
    full preset (buffer 500) a spot price at 1% of the EMA leaves a
    liquidation CF of 100 and an allowed CF of 0, and a position without
    collateral gets (0, 0, 0). *)
Lemma ltv_buffer_gap_counterexample :
  ltv_buffer_enabled FULL_OMNIPAIR_GAMM = true /\
  ltv_buffer_bps FULL_OMNIPAIR_GAMM = 500 /\
  exists pool,
    Pool.GAMMPool_init exp_not_evaluated FULL_OMNIPAIR_GAMM
      (1000000 * NAD) (1000000 * NAD) 0 = Ok pool /\
    CF.calculate (Pool.cf_calculator pool) (100 * NAD) NAD 10000000
      (1000000 * NAD) = Ok (0, 0, 100) /\
    100 - 0 <> ltv_buffer_bps FULL_OMNIPAIR_GAMM /\
    CF.calculate (Pool.cf_calculator pool) 0 NAD NAD (1000000 * NAD)
    = Ok (0, 0, 0) /\
    0 - 0 <> ltv_buffer_bps FULL_OMNIPAIR_GAMM.
Proof.
  split; [ reflexivity | split; [ reflexivity | ] ].
  eexists. split; [ vm_compute; reflexivity | ].
  repeat split; vm_compute; congruence.
Qed.

(** C4 (amended).  For a pool whose configuration enables the LTV buffer
    with the buffer 500 of [LTV_BUFFER_BPS]: whenever the solver returns a
    liquidation CF of at least the configured buffer, the liquidation CF
    minus the allowed CF is exactly the configured buffer; when the
    liquidation CF is smaller (the result (0, 0, 0) included) the allowed CF
    is 0. *)
Theorem ltv_buffer_gap_is_the_configured_buffer
    (math_exp : PyFloat.float -> PyFloat.float) (cfg : SimulationConfig)
    (rb rq ts : Z) (pool : Pool.GAMMPool)
    (collateral_amount collateral_ema_price collateral_spot_price
     debt_reserve max_borrow max_allowed_cf_bps liquidation_cf_bps : Z) :
  Pool.GAMMPool_init math_exp cfg rb rq ts = Ok pool ->
  ltv_buffer_enabled cfg = true ->
  ltv_buffer_bps cfg = LTV_BUFFER_BPS ->
  CF.calculate (Pool.cf_calculator pool) collateral_amount
    collateral_ema_price collateral_spot_price debt_reserve
  = Ok (max_borrow, max_allowed_cf_bps, liquidation_cf_bps) ->
  (ltv_buffer_bps cfg <= liquidation_cf_bps ->
   liquidation_cf_bps - max_allowed_cf_bps = ltv_buffer_bps cfg) /\
  (liquidation_cf_bps < ltv_buffer_bps cfg -> max_allowed_cf_bps = 0).
Proof.
  intros Hinit Hon Hbuf Hcalc.
  destruct (GAMMPool_init_components _ _ _ _ _ _ Hinit) as [_ [Hc _]].
  unfold CF.calculate in Hcalc. rewrite Hc in Hcalc. cbn in Hcalc.
  rewrite Hon in Hcalc.
  apply pessimistic_max_debt_buffer_gap in Hcalc.
  rewrite Hbuf. split; lia.
Qed.

Lemma ltv_buffer_gap_is_the_configured_buffer_witness :
  exists pool,
    Pool.GAMMPool_init exp_not_evaluated FULL_OMNIPAIR_GAMM
      (1000000 * NAD) (1000000 * NAD) 0 = Ok pool /\
    CF.calculate (Pool.cf_calculator pool) (100 * NAD) NAD NAD (1000000 * NAD)
    = Ok (70 * NAD, 7000, 7500) /\
    7500 - 7000 = ltv_buffer_bps FULL_OMNIPAIR_GAMM.
Proof.
  eexists. split; [ vm_compute; reflexivity | ].
  split; [ vm_compute; reflexivity | ].
  refine (proj1 (ltv_buffer_gap_is_the_configured_buffer exp_not_evaluated
                   FULL_OMNIPAIR_GAMM (1000000 * NAD) (1000000 * NAD) 0 _
                   (100 * NAD) NAD NAD (1000000 * NAD) (70 * NAD) 7000 7500
                   _ _ _ _) _);
    [ vm_compute; reflexivity | reflexivity | reflexivity
    | vm_compute; reflexivity | vm_compute; discriminate ].
Defined.

(** The buffer of the configuration is not consulted by the solver: the
    conservative preset configures 1000 bps and gets a gap of 500. *)
Example conservative_preset_gap :
  ltv_buffer_bps CONSERVATIVE_GAMM = 1000 /\
  exists pool,
    Pool.GAMMPool_init exp_not_evaluated CONSERVATIVE_GAMM
      (1000000 * NAD) (1000000 * NAD) 0 = Ok pool /\
    CF.calculate (Pool.cf_calculator pool) (100 * NAD) NAD NAD (1000000 * NAD)
    = Ok (70 * NAD, 7000, 7500).
Proof.
  split; [ reflexivity | ].
  eexists. split; [ vm_compute; reflexivity | vm_compute; reflexivity ].
Qed.

(** ** Liquidation marks a position terminal (C2) *)

Lemma same_terms_refl (e : Liq.LiquidationEngine) : same_terms e e.
Proof. split; reflexivity. Qed.

Lemma same_terms_trans (e1 e2 e3 : Liq.LiquidationEngine) :
  same_terms e1 e2 -> same_terms e2 e3 -> same_terms e1 e3.
Proof. unfold same_terms. intros [H1 H2] [H3 H4]. split; congruence. Qed.

Lemma check_and_liquidate_terms (self self' : Liq.LiquidationEngine)
    (collateral_amount collateral_price debt_amount liquidation_cf_bps : Z)
    (res : Liq.LiquidationResult) :
  Liq.check_and_liquidate self collateral_amount collateral_price debt_amount
    liquidation_cf_bps = Ok (self', res) ->
  same_terms self self' /\
  Liq.calculate_liquidation collateral_amount collateral_price debt_amount
    liquidation_cf_bps (Liq.close_factor_bps self)
    (Liq.liquidation_incentive_bps self) = Ok res.
Proof.
  unfold Liq.check_and_liquidate. intros H. bind_inv H.
  destruct a as [r | l]; injection H as <- <-;
    (split; [ split; reflexivity | reflexivity ]).
Qed.

Section PoolSteps.

Variable math_exp : PyFloat.float -> PyFloat.float.

Lemma get_lending_price_keeps (self self' : Pool.GAMMPool) (timestamp p : Z) :
  Pool.get_lending_price math_exp self timestamp = Ok (self', p) ->
  Pool.positions self' = Pool.positions self /\
  Pool.liquidation_engine self' = Pool.liquidation_engine self.
Proof.
  unfold Pool.get_lending_price. intros H. bind_inv H.
  destruct a as [oracle' q]. injection H as <- _. split; reflexivity.
Qed.

Lemma check_position_checked (timestamp lending_price spot_price : Z)
    (self self' : Pool.GAMMPool) (p p' : Pool.BorrowerPosition)
    (evs : list Pool.LiquidationEvent) :
  Pool.check_position timestamp lending_price spot_price self p
  = Ok (self', p', evs) ->
  same_terms (Pool.liquidation_engine self) (Pool.liquidation_engine self') /\
  checked (Liq.close_factor_bps (Pool.liquidation_engine self))
          (Liq.liquidation_incentive_bps (Pool.liquidation_engine self))
          timestamp p p'.
Proof.
  unfold Pool.check_position, checked.
  destruct (Pool.liquidated p) eqn:Hliq.
  - intros H. injection H as <- <- _.
    split; [ apply same_terms_refl | ].
    split; [ reflexivity | discriminate ].
  - intros H. bind_inv H. destruct a as [[mb ma] liq_cf].
    bind_inv H. destruct a as [engine res].
    apply check_and_liquidate_terms in Hm0. destruct Hm0 as [Hterms Hres].
    destruct res as [r | l]; injection H as <- <- _;
      (split; [ exact Hterms | ]);
      (split; [ discriminate | ]); intros _;
      exists lending_price, liq_cf; eexists;
      (split; [ exact Hres | reflexivity ]).
Qed.

Lemma check_positions_checked (timestamp lending_price spot_price : Z)
    (ps : list Pool.BorrowerPosition) :
  forall (self self' : Pool.GAMMPool) (ps' : list Pool.BorrowerPosition)
         (evs : list Pool.LiquidationEvent),
    Pool.check_positions timestamp lending_price spot_price self ps
    = Ok (self', ps', evs) ->
    same_terms (Pool.liquidation_engine self) (Pool.liquidation_engine self') /\
    forall (i : nat) (p : Pool.BorrowerPosition),
      nth_error ps i = Some p ->
      exists p',
        nth_error ps' i = Some p' /\
        checked (Liq.close_factor_bps (Pool.liquidation_engine self))
                (Liq.liquidation_incentive_bps (Pool.liquidation_engine self))
                timestamp p p'.
Proof.
  induction ps as [ | q rest IH ]; intros self self' ps' evs H.
  - injection H as <- <- _. split; [ apply same_terms_refl | ].
    intros [ | i ] p Hp; discriminate Hp.
  - cbn [Pool.check_positions] in H. bind_inv H.
    destruct a as [[self1 q'] evs1]. bind_inv H.
    destruct a as [[self2 rest'] evs2]. injection H as <- <- _.
    apply check_position_checked in Hm. destruct Hm as [Ht1 Hq].
    apply IH in Hm0. destruct Hm0 as [Ht2 Hrest].
    split; [ eapply same_terms_trans; eassumption | ].
    intros [ | i ] p Hp.
    + injection Hp as <-. exists q'. split; [ reflexivity | exact Hq ].
    + destruct (Hrest i p Hp) as [p' [Hn Hc]].
      exists p'. split; [ exact Hn | ].
      destruct Ht1 as [-> ->] in Hc. exact Hc.
Qed.

Lemma check_liquidations_checked (self self' : Pool.GAMMPool) (timestamp : Z)
    (evs : list Pool.LiquidationEvent) :
  Pool.check_liquidations math_exp self timestamp = Ok (self', evs) ->
  same_terms (Pool.liquidation_engine self) (Pool.liquidation_engine self') /\
  forall (i : nat) (p : Pool.BorrowerPosition),
    nth_error (Pool.positions self) i = Some p ->
    exists p',
      nth_error (Pool.positions self') i = Some p' /\
      checked (Liq.close_factor_bps (Pool.liquidation_engine self))
              (Liq.liquidation_incentive_bps (Pool.liquidation_engine self))
              timestamp p p'.
Proof.
  unfold Pool.check_liquidations. intros H. bind_inv H.
  destruct a as [self1 lending_price]. bind_inv H.
  destruct a as [[self2 ps] liquidations]. injection H as <- _.
  apply get_lending_price_keeps in Hm. destruct Hm as [Hps He].
  apply check_positions_checked in Hm0. destruct Hm0 as [Ht Hc].
  rewrite Hps, He in *. cbn. split; [ exact Ht | exact Hc ].
Qed.

Lemma step_checked (self self' : Pool.GAMMPool) (new_price timestamp : Z)
    (state : Pool.PoolState) :
  Pool.step math_exp self new_price timestamp = Ok (self', state) ->
  same_terms (Pool.liquidation_engine self) (Pool.liquidation_engine self') /\
  forall (i : nat) (p : Pool.BorrowerPosition),
    nth_error (Pool.positions self) i = Some p ->
    exists p',
      nth_error (Pool.positions self') i = Some p' /\
      checked (Liq.close_factor_bps (Pool.liquidation_engine self))
              (Liq.liquidation_incentive_bps (Pool.liquidation_engine self))
              timestamp p p'.
Proof.
  unfold Pool.step. cbv zeta. intros H. bind_inv H.
  destruct a as [self1 lending_price]. bind_inv H.
  destruct a as [self2 liquidations]. bind_inv H.
  injection H as <- _.
  apply get_lending_price_keeps in Hm. cbn in Hm. destruct Hm as [Hps He].
  apply check_liquidations_checked in Hm0. destruct Hm0 as [Ht Hc].
  rewrite Hps, He in *. cbn. split; [ exact Ht | exact Hc ].
Qed.

Lemma run_steps_skips_liquidated (price_data : list (Z * Z)) :
  forall (self self' : Pool.GAMMPool) (i : nat) (p : Pool.BorrowerPosition),
    Pool.run_steps math_exp self price_data = Ok self' ->
    nth_error (Pool.positions self) i = Some p ->
    Pool.liquidated p = true ->
    nth_error (Pool.positions self') i = Some p.
Proof.
  induction price_data as [ | [timestamp price] rest IH ];
    intros self self' i p H Hp Hliq.
  - injection H as <-. exact Hp.
  - cbn [Pool.run_steps] in H. bind_inv H. destruct a as [self1 state].
    apply step_checked in Hm. destruct Hm as [_ Hc].
    destruct (Hc i p Hp) as [p' [Hn [Hskip _]]].
    rewrite (Hskip Hliq) in Hn. eapply IH; eassumption.
Qed.

(** The loop reaches the position [i] in the pool that the positions
    before it have left, and puts the result of the loop body at [i]. *)
Lemma check_positions_at (timestamp lending_price spot_price : Z)
    (ps : list Pool.BorrowerPosition) :
  forall (self self' : Pool.GAMMPool) (ps' : list Pool.BorrowerPosition)
         (evs : list Pool.LiquidationEvent) (i : nat)
         (p : Pool.BorrowerPosition),
    Pool.check_positions timestamp lending_price spot_price self ps
    = Ok (self', ps', evs) ->
    nth_error ps i = Some p ->
    exists before earlier evs0 after p' evs1,
      Pool.check_positions timestamp lending_price spot_price self
        (firstn i ps) = Ok (before, earlier, evs0) /\
      Pool.check_position timestamp lending_price spot_price before p
      = Ok (after, p', evs1) /\
      nth_error ps' i = Some p'.
Proof.
  induction ps as [ | q rest IH ]; intros self self' ps' evs i p H Hp.
  - destruct i; discriminate Hp.
  - cbn [Pool.check_positions] in H. bind_inv H.
    destruct a as [[self1 q'] evs1]. bind_inv H.
    destruct a as [[self2 rest'] evs2]. injection H as <- <- _.
    destruct i as [ | i ].
    + injection Hp as <-.
      exists self, [], [], self1, q', evs1.
      split; [ reflexivity | ]. split; [ exact Hm | reflexivity ].
    + cbn [nth_error] in Hp.
      destruct (IH _ _ _ _ _ _ Hm0 Hp)
        as [before [earlier [evs0 [after [p' [evs' [Hb [Hc Hn]]]]]]]].
      exists before, (q' :: earlier), (evs1 ++ evs0), after, p', evs'.
      split; [ | split; [ exact Hc | exact Hn ] ].
      cbn [firstn Pool.check_positions]. rewrite Hm. cbn [bind].
      rewrite Hb. reflexivity.
Qed.

(** The loop body on a position that is not liquidated: the liquidation
    CF is the one the calculator gives for the position at the reserve of
    the pool, and the position follows the report of the engine. *)
Lemma check_position_evaluates (timestamp lending_price spot_price : Z)
    (self self' : Pool.GAMMPool) (p p' : Pool.BorrowerPosition)
    (evs : list Pool.LiquidationEvent) :
  Pool.check_position timestamp lending_price spot_price self p
  = Ok (self', p', evs) ->
  Pool.liquidated p = false ->
  exists max_borrow max_cf_bps liq_cf_bps engine res,
    CF.calculate (Pool.cf_calculator self) (Pool.collateral_amount p)
      lending_price spot_price (Pool.reserve_quote self)
    = Ok (max_borrow, max_cf_bps, liq_cf_bps) /\
    Liq.check_and_liquidate (Pool.liquidation_engine self)
      (Pool.collateral_amount p) lending_price (Pool.debt_amount p)
      liq_cf_bps = Ok (engine, res) /\
    p' = match res with
         | Liq.NotLiquidatable _ => p
         | Liq.Liquidatable l => Pool.liquidate p timestamp lending_price l
         end.
Proof.
  unfold Pool.check_position. intros H Hliq. rewrite Hliq in H.
  bind_inv H. destruct a as [[mb mc] liq_cf].
  bind_inv H. destruct a as [engine res].
  exists mb, mc, liq_cf, engine, res.
  split; [ reflexivity | ]. split; [ exact Hm0 | ].
  destruct res as [r | l]; injection H as _ <- _; reflexivity.
Qed.

(** A step runs the loop of [check_liquidations] from
    [step_check_start] over the positions of the pool. *)
Lemma step_runs_the_loop (self self' : Pool.GAMMPool) (new_price timestamp : Z)
    (state : Pool.PoolState) :
  Pool.step math_exp self new_price timestamp = Ok (self', state) ->
  exists start lending_price spot_price done evs,
    step_check_start math_exp self new_price timestamp
    = Ok (start, lending_price, spot_price) /\
    Pool.liquidation_engine start = Pool.liquidation_engine self /\
    Pool.check_positions timestamp lending_price spot_price start
      (Pool.positions self) = Ok (done, Pool.positions self', evs).
Proof.
  unfold Pool.step, step_check_start. cbv zeta. intros H. bind_inv H.
  destruct a as [self1 lending_price0]. bind_inv H.
  destruct a as [self2 liquidations]. bind_inv H.
  injection H as <- _.
  unfold Pool.check_liquidations in Hm0. bind_inv Hm0.
  destruct a0 as [self3 lending_price]. bind_inv Hm0.
  destruct a0 as [[self4 ps] evs]. injection Hm0 as <- _.
  cbn [bind].
  destruct (get_lending_price_keeps _ _ _ _ Hm) as [Hps1 He1].
  destruct (get_lending_price_keeps _ _ _ _ Hm2) as [Hps2 He2].
  cbn in Hps1, He1.
  exists self3, lending_price, (Pool.get_spot_price self3), self4, evs.
  split; [ rewrite Hm2; reflexivity | ].
  split; [ congruence | ].
  rewrite <- Hps1, <- Hps2. exact Hm3.
Qed.

End PoolSteps.

(** A solvent position that is partially liquidated is marked liquidated.
    In [partial_liquidation_run] the position opens with a debt of 56.25.
    At the price 0.7 its collateral is worth 70 and the limit is 52.5: it
    is liquidatable and solvent, 28.125 of the debt is repaid, and the
    position is left with a debt of 28.125 and [liquidated = true].  At the
    price 0.3 the remaining collateral is worth less than the remaining
    debt, yet the position is skipped: it is unchanged, no further event
    is recorded and no bad debt is counted. *)
Lemma partial_liquidation_is_terminal :
  exists opened after_first after_second p ev,
    partial_liquidation_run = Ok (opened, after_first, after_second) /\
    Pool.liquidated opened = false /\
    Pool.debt_amount opened = 56250000000 /\
    Pool.positions after_first = [p] /\
    Pool.liquidation_events after_first = [ev] /\
    Liq.is_insolvent (Pool.ev_result ev) = false /\
    Liq.debt_to_repay (Pool.ev_result ev) = 28125000000 /\
    Liq.debt_to_repay (Pool.ev_result ev) < Pool.debt_amount opened /\
    Pool.liquidated p = true /\
    Pool.debt_amount p = 28125000000 /\
    Pool.collateral_amount p = 59821428572 /\
    Pool.positions after_second = [p] /\
    Pool.liquidation_events after_second = [ev] /\
    (Pool.collateral_amount p * 299999999) / NAD < Pool.debt_amount p /\
    Liq.total_bad_debt (Pool.liquidation_engine after_second) = 0.
Proof.
  do 5 eexists.
  split; [ vm_compute; reflexivity | ].
  repeat split.
Qed.

(** C2 (amended).  In every step, a position that is already liquidated is
    left as it is.  A position that is not liquidated is evaluated in the
    loop of [check_liquidations]: at the lending price and the spot price
    with which the step starts the loop, in the pool that the positions
    before it have left, the calculator gives its liquidation CF and the
    liquidation engine, with the close factor and the incentive of the
    pool, reports on it.  When the report is liquidatable, be it a partial
    liquidation of a solvent position or a full one, the position keeps the
    remaining collateral and debt and is marked liquidated; otherwise it is
    unchanged.  A position marked liquidated stays exactly as it is through
    all later steps. *)
Theorem liquidation_marks_the_position_terminal
    (math_exp : PyFloat.float -> PyFloat.float)
    (self self' : Pool.GAMMPool) (new_price timestamp : Z)
    (state : Pool.PoolState) (i : nat) (p : Pool.BorrowerPosition) :
  Pool.step math_exp self new_price timestamp = Ok (self', state) ->
  nth_error (Pool.positions self) i = Some p ->
  exists p',
    nth_error (Pool.positions self') i = Some p' /\
    (Pool.liquidated p = true -> p' = p) /\
    (Pool.liquidated p = false ->
     exists start lending_price spot_price before earlier evs
            max_borrow max_cf_bps liq_cf_bps engine res,
       step_check_start math_exp self new_price timestamp
       = Ok (start, lending_price, spot_price) /\
       Pool.check_positions timestamp lending_price spot_price start
         (firstn i (Pool.positions self)) = Ok (before, earlier, evs) /\
       CF.calculate (Pool.cf_calculator before) (Pool.collateral_amount p)
         lending_price spot_price (Pool.reserve_quote before)
       = Ok (max_borrow, max_cf_bps, liq_cf_bps) /\
       Liq.check_and_liquidate (Pool.liquidation_engine before)
         (Pool.collateral_amount p) lending_price (Pool.debt_amount p)
         liq_cf_bps = Ok (engine, res) /\
       Liq.calculate_liquidation (Pool.collateral_amount p) lending_price
         (Pool.debt_amount p) liq_cf_bps
         (Liq.close_factor_bps (Pool.liquidation_engine self))
         (Liq.liquidation_incentive_bps (Pool.liquidation_engine self))
       = Ok res /\
       match res with
       | Liq.NotLiquidatable _ => p' = p
       | Liq.Liquidatable l =>
           Pool.liquidated p' = true /\
           Pool.collateral_amount p' = Liq.remaining_collateral l /\
           Pool.debt_amount p' = Liq.remaining_debt l /\
           p' = Pool.liquidate p timestamp lending_price l
       end) /\
    (forall (later : list (Z * Z)) (self'' : Pool.GAMMPool),
       Pool.liquidated p' = true ->
       Pool.run_steps math_exp self' later = Ok self'' ->
       nth_error (Pool.positions self'') i = Some p').
Proof.
  intros Hstep Hp.
  destruct (step_runs_the_loop math_exp _ _ _ _ _ Hstep)
    as [start [lending_price [spot_price [done [evs [Hstart [He Hloop]]]]]]].
  destruct (check_positions_at _ _ _ _ _ _ _ _ _ _ Hloop Hp)
    as [before [earlier [evs0 [after [p' [evs1 [Hb [Hc Hn]]]]]]]].
  exists p'. split; [ exact Hn | ]. split; [ | split ].
  - intros Hliq. unfold Pool.check_position in Hc. rewrite Hliq in Hc.
    injection Hc as _ Hpp _. symmetry. exact Hpp.
  - intros Hlive.
    destruct (check_position_evaluates _ _ _ _ _ _ _ _ Hc Hlive)
      as [mb [mc [liq_cf [engine [res [Hcf [Hreport Hp']]]]]]].
    exists start, lending_price, spot_price, before, earlier, evs0,
           mb, mc, liq_cf, engine, res.
    split; [ exact Hstart | ]. split; [ exact Hb | ].
    split; [ exact Hcf | ]. split; [ exact Hreport | ].
    split.
    + destruct (check_and_liquidate_terms _ _ _ _ _ _ _ Hreport)
        as [_ Hcalc].
      destruct (check_positions_checked _ _ _ _ _ _ _ _ Hb)
        as [[Hclose Hincentive] _].
      rewrite Hclose, Hincentive, He in Hcalc. exact Hcalc.
    + destruct res as [r | l]; [ exact Hp' | ].
      subst p'. repeat split.
  - intros later self'' Hliq Hrun.
    eapply run_steps_skips_liquidated; eassumption.
Qed.

Lemma liquidation_marks_the_position_terminal_witness :
  exists pool0 pool1 opened pool2 state p',
    Pool.GAMMPool_init exp_not_evaluated TRADITIONAL_LENDING
      (1000 * NAD) (1000 * NAD) 0 = Ok pool0 /\
    Pool.create_position exp_not_evaluated pool0 (100 * NAD) three_quarters 0
    = Ok (pool1, opened) /\
    Pool.step exp_not_evaluated pool1 700000000 60 = Ok (pool2, state) /\
    nth_error (Pool.positions pool1) 0 = Some opened /\
    Pool.liquidated opened = false /\
    nth_error (Pool.positions pool2) 0 = Some p' /\
    Pool.liquidated p' = true /\
    Pool.debt_amount p' = 28125000000 /\
    (forall (later : list (Z * Z)) (self'' : Pool.GAMMPool),
       Pool.run_steps exp_not_evaluated pool2 later = Ok self'' ->
       nth_error (Pool.positions self'') 0 = Some p').
Proof.
  do 6 eexists.
  split; [ vm_compute; reflexivity | ].
  split; [ vm_compute; reflexivity | ].
  match goal with
  | |- Pool.step _ ?pool _ _ = _ /\ _ => pose (pool1 := pool)
  end.
  split; [ vm_compute; reflexivity | ].
  split; [ vm_compute; reflexivity | ].
  split; [ reflexivity | ].
  split; [ vm_compute; reflexivity | ].
  split; [ reflexivity | ].
  split; [ reflexivity | ].
  intros later self'' Hrun.
  edestruct (liquidation_marks_the_position_terminal exp_not_evaluated pool1)
    with (new_price := 700000000) (timestamp := 60) (i := 0%nat)
    as [p' [Hn [_ [_ Hlater]]]];
    [ vm_compute; reflexivity
    | vm_compute; reflexivity
    | ].
  vm_compute in Hn. injection Hn as <-.
  apply (Hlater later self''); [ reflexivity | exact Hrun ].
Defined.

(** * Further properties of the engine *)

(** ** The EMA engine *)

(** X1.  [get_current_ema] predicts [update]: for every state and every
    observation it returns the price that [update] returns, and it raises
    whenever [update] raises. *)
Theorem get_current_ema_predicts_update
    (math_exp : PyFloat.float -> PyFloat.float) (self : Ema.EMAEngine)
    (current_spot_price current_time : Z) :
  Ema.get_current_ema math_exp self current_spot_price current_time
  = match Ema.update math_exp self current_spot_price current_time with
    | Ok (_, price) => Ok price
    | Raise e => Raise e
    end.
Proof.
  unfold Ema.get_current_ema, Ema.update.
  destruct (Ema.last_ema self =? 0); [ reflexivity | ].
  cbv zeta. destruct (current_time - Ema.last_update self <=? 0);
    [ reflexivity | ].
  bind_cases; reflexivity.
Qed.

(** X2.  A successful [update] stores the price it returns, never changes
    the half-life, and either leaves the state as it was or stamps it with
    the time of the call. *)
Theorem update_stores_the_returned_price
    (math_exp : PyFloat.float -> PyFloat.float) (self self' : Ema.EMAEngine)
    (current_spot_price current_time price : Z) :
  Ema.update math_exp self current_spot_price current_time = Ok (self', price) ->
  Ema.last_ema self' = price /\
  Ema.half_life self' = Ema.half_life self /\
  (self' = self \/ Ema.last_update self' = current_time).
Proof.
  unfold Ema.update.
  destruct (Ema.last_ema self =? 0).
  - intros H. injection H as <- <-. repeat split. right. reflexivity.
  - cbv zeta. destruct (current_time - Ema.last_update self <=? 0).
    + intros H. injection H as <- <-. repeat split. left. reflexivity.
    + intros H. repeat bind_inv H. injection H as <- <-.
      repeat split. right. reflexivity.
Qed.

Lemma update_stores_the_returned_price_witness :
  let self := {| Ema.half_life := 60; Ema.last_ema := 0; Ema.last_update := 0 |} in
  let self' := {| Ema.half_life := 60; Ema.last_ema := NAD; Ema.last_update := 5 |} in
  Ema.last_ema self' = NAD /\
  Ema.half_life self' = Ema.half_life self /\
  (self' = self \/ Ema.last_update self' = 5).
Proof.
  apply (update_stores_the_returned_price exp_not_evaluated
           {| Ema.half_life := 60; Ema.last_ema := 0; Ema.last_update := 0 |}
           {| Ema.half_life := 60; Ema.last_ema := NAD; Ema.last_update := 5 |}
           NAD 5 NAD).
  reflexivity.
Defined.

(** X3.  After any successful [update] that returned a non-zero price, a
    further call at the same timestamp returns the same price whatever spot
    price it is given, and leaves the state alone. *)
Theorem update_replayed_at_the_same_time
    (math_exp : PyFloat.float -> PyFloat.float) (self self' : Ema.EMAEngine)
    (current_spot_price current_time price other_spot_price : Z) :
  Ema.update math_exp self current_spot_price current_time = Ok (self', price) ->
  price <> 0 ->
  Ema.update math_exp self' other_spot_price current_time = Ok (self', price).
Proof.
  intros Hupdate Hprice.
  assert (Hstored : Ema.last_ema self' = price /\
                    current_time - Ema.last_update self' <= 0).
  { revert Hupdate. unfold Ema.update.
    destruct (Ema.last_ema self =? 0).
    - intros H. injection H as <- <-. cbn. split; [ reflexivity | lia ].
    - cbv zeta.
      destruct (Z.leb_spec (current_time - Ema.last_update self) 0) as [Hdt | _].
      + intros H. injection H as <- <-. split; [ reflexivity | exact Hdt ].
      + intros H. repeat bind_inv H. injection H as <- <-. cbn.
        split; [ reflexivity | lia ]. }
  destruct Hstored as [Hema Hdt].
  unfold Ema.update. rewrite Hema.
  destruct (Z.eqb_spec price 0) as [E | _]; [ contradiction | ].
  cbv zeta.
  destruct (Z.leb_spec (current_time - Ema.last_update self') 0) as [_ | Hlt];
    [ reflexivity | lia ].
Qed.

Lemma update_replayed_at_the_same_time_witness :
  Ema.update exp_not_evaluated
    {| Ema.half_life := 60; Ema.last_ema := NAD; Ema.last_update := 5 |}
    (2 * NAD) 5
  = Ok ({| Ema.half_life := 60; Ema.last_ema := NAD; Ema.last_update := 5 |}, NAD).
Proof.
  apply (update_replayed_at_the_same_time exp_not_evaluated
           {| Ema.half_life := 60; Ema.last_ema := 0; Ema.last_update := 0 |}
           {| Ema.half_life := 60; Ema.last_ema := NAD; Ema.last_update := 5 |}
           NAD 5 NAD (2 * NAD)); [ reflexivity | discriminate ].
Defined.

(** ** The collateral factor solver *)

(** X4.  Every degenerate input resolves to (0, 0, 0) without raising: a
    zero collateral amount, a zero EMA price, a zero spot price, or a zero
    debt reserve when the dynamic CF is the one in use. *)
Theorem pessimistic_max_debt_degenerate
    (collateral_amount collateral_ema_price collateral_spot_price
     debt_reserve : Z) (fixed_cf_bps : option Z)
    (use_dynamic_cf use_pessimistic_cap use_ltv_buffer : bool) :
  collateral_amount = 0 \/ collateral_ema_price = 0 \/
  collateral_spot_price = 0 \/
  (fixed_cf_bps = None /\ use_dynamic_cf = true /\ debt_reserve = 0) ->
  CF.pessimistic_max_debt collateral_amount collateral_ema_price
    collateral_spot_price debt_reserve fixed_cf_bps use_dynamic_cf
    use_pessimistic_cap use_ltv_buffer = Ok (0, 0, 0).
Proof.
  intros H. unfold CF.pessimistic_max_debt.
  destruct (Z.eqb_spec collateral_amount 0) as [ | Hc ]; [ reflexivity | ].
  destruct (Z.eqb_spec collateral_ema_price 0) as [ | He ]; [ reflexivity | ].
  destruct (Z.eqb_spec collateral_spot_price 0) as [ | Hs ]; [ reflexivity | ].
  destruct H as [H | [H | [H | [-> [-> ->]]]]]; try contradiction.
  reflexivity.
Qed.

Lemma pessimistic_max_debt_degenerate_witness :
  CF.pessimistic_max_debt (100 * NAD) NAD NAD 0 None true true true
  = Ok (0, 0, 0).
Proof.
  apply (pessimistic_max_debt_degenerate (100 * NAD) NAD NAD 0 None true true true).
  right. right. right. repeat split.
Defined.

(** X5.  Whatever the solver returns: the liquidation CF is at most 8500
    bps, the allowed CF is non-negative and at most the liquidation CF (or 0
    when that is negative), and the borrow limit is the collateral value at
    the EMA price times the allowed CF.  With the pessimistic cap the
    liquidation CF of a non-degenerate result is at least 100 bps; for
    non-negative collateral and price the borrow limit lies between 0 and
    85% of the collateral value. *)
Theorem pessimistic_max_debt_bounds
    (collateral_amount collateral_ema_price collateral_spot_price
     debt_reserve : Z) (fixed_cf_bps : option Z)
    (use_dynamic_cf use_pessimistic_cap use_ltv_buffer : bool)
    (max_borrow max_allowed_cf_bps liquidation_cf_bps : Z) :
  CF.pessimistic_max_debt collateral_amount collateral_ema_price
    collateral_spot_price debt_reserve fixed_cf_bps use_dynamic_cf
    use_pessimistic_cap use_ltv_buffer
  = Ok (max_borrow, max_allowed_cf_bps, liquidation_cf_bps) ->
  let v := (collateral_amount * collateral_ema_price) / NAD in
  liquidation_cf_bps <= MAX_COLLATERAL_FACTOR_BPS /\
  0 <= max_allowed_cf_bps <= Z.max 0 liquidation_cf_bps /\
  max_borrow = (v * max_allowed_cf_bps) / BPS_DENOMINATOR /\
  (use_pessimistic_cap = true ->
   liquidation_cf_bps = 0 \/ 100 <= liquidation_cf_bps) /\
  (0 <= collateral_amount -> 0 <= collateral_ema_price ->
   0 <= max_borrow <= (v * MAX_COLLATERAL_FACTOR_BPS) / BPS_DENOMINATOR).
Proof.
  intros H v.
  assert (Hv : 0 <= collateral_amount -> 0 <= collateral_ema_price -> 0 <= v).
  { intros Hc He. subst v. apply Z.div_pos; [ nia | reflexivity ]. }
  assert (Hmain :
    liquidation_cf_bps <= MAX_COLLATERAL_FACTOR_BPS /\
    0 <= max_allowed_cf_bps <= Z.max 0 liquidation_cf_bps /\
    max_borrow = (v * max_allowed_cf_bps) / BPS_DENOMINATOR /\
    (use_pessimistic_cap = true ->
     liquidation_cf_bps = 0 \/ 100 <= liquidation_cf_bps)).
  { revert H. unfold CF.pessimistic_max_debt. fold v.
    destruct (_ || _).
    - intros H. injection H as <- <- <-.
      unfold MAX_COLLATERAL_FACTOR_BPS. rewrite Z.mul_0_r.
      repeat split; intros; lia.
    - intros H. bind_inv H. destruct a as [base | ].
      + injection H as <- <- <-.
        destruct use_pessimistic_cap.
        * pose proof (pessimistic_cf_range base collateral_spot_price
                        collateral_ema_price) as Hr.
          unfold MAX_COLLATERAL_FACTOR_BPS, LTV_BUFFER_BPS in *.
          destruct use_ltv_buffer; repeat split; intros; lia.
        * unfold MAX_COLLATERAL_FACTOR_BPS, LTV_BUFFER_BPS in *.
          destruct use_ltv_buffer; repeat split; intros;
            try discriminate; lia.
      + injection H as <- <- <-.
        unfold MAX_COLLATERAL_FACTOR_BPS. rewrite Z.mul_0_r.
        repeat split; intros; lia. }
  destruct Hmain as [Hliq [Hallowed [Hborrow Hcap]]].
  split; [ exact Hliq | ]. split; [ exact Hallowed | ].
  split; [ exact Hborrow | ]. split; [ exact Hcap | ].
  intros Hc He. specialize (Hv Hc He). rewrite Hborrow. split.
  - apply Z.div_pos; [ nia | reflexivity ].
  - apply Z.div_le_mono; [ reflexivity | ].
    unfold MAX_COLLATERAL_FACTOR_BPS in *. nia.
Qed.

Lemma pessimistic_max_debt_bounds_witness :
  7500 <= MAX_COLLATERAL_FACTOR_BPS /\
  0 <= 7000 <= Z.max 0 7500 /\
  70 * NAD = (((100 * NAD * NAD) / NAD) * 7000) / BPS_DENOMINATOR.
Proof.
  destruct (pessimistic_max_debt_bounds (100 * NAD) NAD NAD (1000000 * NAD)
              (Some 7500) false true true (70 * NAD) 7000 7500)
    as [H1 [H2 [H3 _]]]; [ vm_compute; reflexivity | ].
  split; [ exact H1 | split; [ exact H2 | exact H3 ] ].
Defined.

(** X6.  With a fixed CF the solver never raises, and its result depends
    neither on the debt reserve nor on the dynamic-CF switch. *)
Theorem fixed_cf_ignores_the_debt_reserve
    (collateral_amount collateral_ema_price collateral_spot_price
     debt_reserve debt_reserve' fixed : Z)
    (use_dynamic_cf use_dynamic_cf' use_pessimistic_cap use_ltv_buffer : bool) :
  CF.pessimistic_max_debt collateral_amount collateral_ema_price
    collateral_spot_price debt_reserve (Some fixed) use_dynamic_cf
    use_pessimistic_cap use_ltv_buffer
  = CF.pessimistic_max_debt collateral_amount collateral_ema_price
      collateral_spot_price debt_reserve' (Some fixed) use_dynamic_cf'
      use_pessimistic_cap use_ltv_buffer /\
  exists r,
    CF.pessimistic_max_debt collateral_amount collateral_ema_price
      collateral_spot_price debt_reserve (Some fixed) use_dynamic_cf
      use_pessimistic_cap use_ltv_buffer = Ok r.
Proof.
  unfold CF.pessimistic_max_debt. cbn [CF.base_cf bind].
  split; [ reflexivity | ].
  destruct (_ || _); eexists; reflexivity.
Qed.

(** X7.  The pessimistic CF is monotone in the spot price: for a positive
    EMA price and a non-negative base CF, a lower spot price never gives a
    higher CF. *)
Theorem pessimistic_cf_monotone_in_spot
    (base_cf_bps spot_low spot_high ema_price : Z) :
  0 < ema_price -> 0 <= base_cf_bps -> spot_low <= spot_high ->
  CF.get_pessimistic_cf_bps base_cf_bps spot_low ema_price
  <= CF.get_pessimistic_cf_bps base_cf_bps spot_high ema_price.
Proof.
  intros Hema Hbase Hspot. unfold CF.get_pessimistic_cf_bps.
  destruct (Z.eqb_spec ema_price 0) as [E | _]; [ lia | ].
  assert (spot_low * base_cf_bps / ema_price
          <= spot_high * base_cf_bps / ema_price)
    by (apply Z.div_le_mono; [ exact Hema | nia ]).
  lia.
Qed.

Lemma pessimistic_cf_monotone_in_spot_witness :
  CF.get_pessimistic_cf_bps 8000 900000000 NAD
  <= CF.get_pessimistic_cf_bps 8000 950000000 NAD.
Proof.
  apply (pessimistic_cf_monotone_in_spot 8000 900000000 950000000 NAD);
    [ reflexivity | discriminate | discriminate ].
Defined.

(** ** The solvency curve *)

Lemma unsigned_round_to_int (mx ex : Z) (lx : location) (n : Z) :
  PyFloat.to_int (binary_round_aux PyFloat.prec PyFloat.emax false mx ex lx)
  = Ok n ->
  0 <= n.
Proof.
  unfold binary_round_aux.
  destruct (shr_fexp _ _ mx ex lx) as [mrs' e'].
  destruct (shr_fexp _ _ _ e' loc_Exact) as [mrs'' e''].
  destruct (shr_m mrs'') as [ | m | m ]; cbn [PyFloat.to_int].
  - intros H. injection H as <-. lia.
  - destruct (e'' <=? _); cbn [PyFloat.to_int]; [ | discriminate ].
    intros H. injection H as <-.
    destruct e'' as [ | p | p ].
    + apply Z.shiftl_nonneg. lia.
    + apply Z.shiftl_nonneg. lia.
    + apply Z.shiftr_nonneg. lia.
  - discriminate.
Qed.

Lemma sqrt_term_nonneg (four_a_plus_one sqrt_term : Z) :
  CF.sqrt_term_of four_a_plus_one = Ok sqrt_term -> 0 <= sqrt_term.
Proof.
  unfold CF.sqrt_term_of, PyFloat.math_sqrt. intros H.
  bind_inv H. bind_inv Hm.
  destruct a0 as [ s | s | | s m e ].
  - injection Hm as <-. cbn in H. injection H as <-. lia.
  - injection Hm as <-. destruct s; discriminate H.
  - injection Hm as <-. discriminate H.
  - destruct s; [ discriminate Hm | ].
    injection Hm as <-. cbn [SFsqrt] in H.
    destruct (SFsqrt_core_binary _ _ (Z.pos m) e) as [[mz ez] lz].
    eapply unsigned_round_to_int. exact H.
Qed.

Lemma curve_arithmetic (v r1 a_scaled sqrt_term : Z) :
  0 < v -> 0 < r1 -> a_scaled = v * NAD / r1 -> 0 <= sqrt_term ->
  0 <= r1 * (2 * a_scaled * NAD / (2 * a_scaled + NAD + sqrt_term)) / NAD <= r1 /\
  r1 * (2 * a_scaled * NAD / (2 * a_scaled + NAD + sqrt_term)) / NAD <= 2 * v.
Proof.
  intros Hv Hr Ha_def Hs.
  assert (Ha : 0 <= a_scaled)
    by (subst a_scaled; apply Z.div_pos; [ unfold NAD; nia | exact Hr ]).
  assert (Har : a_scaled * r1 <= v * NAD)
    by (subst a_scaled; rewrite Z.mul_comm; apply Z.mul_div_le; exact Hr).
  clear Ha_def.
  assert (HN : 0 < NAD) by reflexivity.
  set (t_scaled := 2 * a_scaled * NAD / (2 * a_scaled + NAD + sqrt_term)).
  assert (Ht0 : 0 <= t_scaled)
    by (apply Z.div_pos; [ apply Z.mul_nonneg_nonneg; lia | lia ]).
  assert (Ht1 : t_scaled <= NAD).
  { apply Z.div_le_upper_bound; [ lia | ].
    assert (0 <= NAD * (NAD + sqrt_term))
      by (apply Z.mul_nonneg_nonneg; lia).
    lia. }
  assert (Ht2 : t_scaled <= 2 * a_scaled).
  { apply Z.div_le_upper_bound; [ lia | ].
    assert (0 <= (2 * a_scaled + sqrt_term) * (2 * a_scaled))
      by (apply Z.mul_nonneg_nonneg; lia).
    lia. }
  clearbody t_scaled.
  assert (H0 : 0 <= r1 * t_scaled) by (apply Z.mul_nonneg_nonneg; lia).
  assert (H1 : r1 * t_scaled <= r1 * NAD)
    by (apply Z.mul_le_mono_nonneg_l; lia).
  assert (H2 : r1 * t_scaled <= r1 * (2 * a_scaled))
    by (apply Z.mul_le_mono_nonneg_l; lia).
  split; [ split | ].
  - apply Z.div_pos; [ exact H0 | exact HN ].
  - apply Z.div_le_upper_bound; [ exact HN | lia ].
  - apply Z.div_le_upper_bound; [ exact HN | lia ].
Qed.

(** X8.  For a positive collateral value and a positive debt reserve, the
    amount the curve returns is never negative, never more than the debt
    reserve and never more than twice the collateral value. *)
Theorem curve_y_within_the_reserve (v r1 y : Z) :
  0 < v -> 0 < r1 ->
  CF.curve_y_from_v v r1 = Ok y ->
  0 <= y <= r1 /\ y <= 2 * v.
Proof.
  intros Hv Hr. unfold CF.curve_y_from_v.
  destruct (Z.eqb_spec v 0) as [ | _ ]; [ lia | ].
  destruct (Z.eqb_spec r1 0) as [ | _ ]; [ lia | ].
  cbn [orb]. cbv zeta. intros H. bind_inv H.
  apply sqrt_term_nonneg in Hm.
  pose proof (curve_arithmetic v r1 (v * NAD / r1) a Hv Hr eq_refl Hm) as Hb.
  destruct (_ =? 0).
  - injection H as <-. lia.
  - injection H as <-. exact Hb.
Qed.

Lemma curve_y_within_the_reserve_witness :
  0 <= 53589838400 <= 200 * NAD /\ 53589838400 <= 2 * (100 * NAD).
Proof.
  apply (curve_y_within_the_reserve (100 * NAD) (200 * NAD) 53589838400);
    [ reflexivity | reflexivity | vm_compute; reflexivity ].
Defined.

(** ** The liquidation engine *)

(** X9.  At a non-zero price the evaluation never raises, and the position
    is liquidatable exactly when the debt reaches the borrow limit, the
    boundary included. *)
Theorem liquidation_threshold_is_inclusive
    (collateral_amount collateral_price debt_amount liquidation_cf_bps
     close_factor_bps liquidation_incentive_bps : Z) :
  collateral_price <> 0 ->
  exists res,
    Liq.calculate_liquidation collateral_amount collateral_price debt_amount
      liquidation_cf_bps close_factor_bps liquidation_incentive_bps = Ok res /\
    Liq.liquidatable res
    = ((((collateral_amount * collateral_price) / NAD) * liquidation_cf_bps)
       / BPS_DENOMINATOR <=? debt_amount).
Proof.
  intros Hp. unfold Liq.calculate_liquidation. cbv zeta.
  destruct (Z.ltb_spec debt_amount
              (collateral_amount * collateral_price / NAD * liquidation_cf_bps
               / BPS_DENOMINATOR)) as [Hlt | Hge].
  - eexists. split; [ reflexivity | ]. cbn. symmetry. apply Z.leb_gt. exact Hlt.
  - destruct (Z.eqb_spec collateral_price 0) as [E | _]; [ contradiction | ].
    eexists. split; [ reflexivity | ]. cbn. symmetry. apply Z.leb_le. exact Hge.
Qed.

Lemma liquidation_threshold_is_inclusive_witness :
  exists res,
    Liq.calculate_liquidation (1000 * NAD) NAD (850 * NAD) 8500
      CLOSE_FACTOR_BPS LIQUIDATION_INCENTIVE_BPS = Ok res /\
    Liq.liquidatable res
    = ((((1000 * NAD * NAD) / NAD) * 8500) / BPS_DENOMINATOR <=? 850 * NAD).
Proof.
  apply (liquidation_threshold_is_inclusive (1000 * NAD) NAD (850 * NAD) 8500
           CLOSE_FACTOR_BPS LIQUIDATION_INCENTIVE_BPS).
  discriminate.
Defined.

(** X10.  At a price of zero every position with a non-negative debt makes
    the evaluation raise [ZeroDivisionError]. *)
Theorem liquidation_at_zero_price_raises
    (collateral_amount debt_amount liquidation_cf_bps close_factor_bps
     liquidation_incentive_bps : Z) :
  0 <= debt_amount ->
  Liq.calculate_liquidation collateral_amount 0 debt_amount liquidation_cf_bps
    close_factor_bps liquidation_incentive_bps = Raise ZeroDivisionError.
Proof.
  intros Hd. unfold Liq.calculate_liquidation. cbv zeta.
  rewrite Z.mul_0_r. change (0 / NAD) with 0. rewrite Z.mul_0_l.
  change (0 / BPS_DENOMINATOR) with 0.
  destruct (Z.ltb_spec debt_amount 0) as [Hlt | _]; [ lia | ].
  reflexivity.
Qed.

Lemma liquidation_at_zero_price_raises_witness :
  Liq.calculate_liquidation (100 * NAD) 0 (50 * NAD) 8500 CLOSE_FACTOR_BPS
    LIQUIDATION_INCENTIVE_BPS = Raise ZeroDivisionError.
Proof.
  apply (liquidation_at_zero_price_raises (100 * NAD) (50 * NAD) 8500
           CLOSE_FACTOR_BPS LIQUIDATION_INCENTIVE_BPS).
  discriminate.
Defined.

(** X11.  A liquidation never overdraws the position: for non-negative
    collateral and debt, a positive price and a close factor between 0 and
    10000 bps, the debt repaid lies between 0 and the debt, the collateral
    seized between 0 and the collateral, the remainders are what is left
    and are not negative, and the collateral seized is worth (at the price
    of the evaluation) at most the debt repaid. *)
Theorem liquidation_never_overdraws
    (collateral_amount collateral_price debt_amount liquidation_cf_bps
     close_factor_bps liquidation_incentive_bps : Z) (l : Liq.Liquidation) :
  0 <= collateral_amount -> 0 < collateral_price -> 0 <= debt_amount ->
  0 <= close_factor_bps <= BPS_DENOMINATOR ->
  Liq.calculate_liquidation collateral_amount collateral_price debt_amount
    liquidation_cf_bps close_factor_bps liquidation_incentive_bps
  = Ok (Liq.Liquidatable l) ->
  0 <= Liq.debt_to_repay l <= debt_amount /\
  Liq.remaining_debt l = debt_amount - Liq.debt_to_repay l /\
  0 <= Liq.remaining_debt l /\
  0 <= Liq.collateral_seized l <= collateral_amount /\
  Liq.remaining_collateral l = collateral_amount - Liq.collateral_seized l /\
  0 <= Liq.remaining_collateral l /\
  (Liq.collateral_seized l * collateral_price) / NAD <= Liq.debt_to_repay l.
Proof.
  intros Hc Hp Hd Hcf. unfold Liq.calculate_liquidation. cbv zeta.
  destruct (debt_amount <? _); [ discriminate | ].
  destruct (Z.eqb_spec collateral_price 0) as [E | _]; [ lia | ].
  intros H. injection H as <-.
  cbn [Liq.debt_to_repay Liq.remaining_debt Liq.collateral_seized
       Liq.remaining_collateral].
  set (repay := if _ <? _ then debt_amount else _).
  assert (Hrepay : 0 <= repay <= debt_amount).
  { subst repay. destruct (_ <? _); [ lia | ].
    assert (0 <= debt_amount * close_factor_bps / BPS_DENOMINATOR)
      by (apply Z.div_pos; [ nia | reflexivity ]).
    lia. }
  clearbody repay.
  assert (Hq : 0 <= repay * NAD / collateral_price)
    by (apply Z.div_pos; [ unfold NAD; nia | exact Hp ]).
  assert (Hqp : collateral_price * (repay * NAD / collateral_price) <= repay * NAD)
    by (apply Z.mul_div_le; exact Hp).
  set (seized := Z.min (repay * NAD / collateral_price) collateral_amount).
  assert (Hseized : 0 <= seized <= collateral_amount) by (subst seized; lia).
  assert (Hvalue : seized * collateral_price <= repay * NAD).
  { assert (seized <= repay * NAD / collateral_price) by (subst seized; lia).
    assert (seized * collateral_price
            <= repay * NAD / collateral_price * collateral_price)
      by (apply Z.mul_le_mono_nonneg_r; lia).
    lia. }
  clearbody seized.
  repeat split; try lia.
  apply Z.div_le_upper_bound; [ reflexivity | lia ].
Qed.

Lemma liquidation_never_overdraws_witness :
  exists l,
    Liq.calculate_liquidation (1000 * NAD) NAD (900 * NAD) 8500
      CLOSE_FACTOR_BPS LIQUIDATION_INCENTIVE_BPS = Ok (Liq.Liquidatable l) /\
    0 <= Liq.debt_to_repay l <= 900 * NAD /\
    0 <= Liq.remaining_collateral l.
Proof.
  eexists. split; [ vm_compute; reflexivity | ].
  edestruct (liquidation_never_overdraws (1000 * NAD) NAD (900 * NAD) 8500
               CLOSE_FACTOR_BPS LIQUIDATION_INCENTIVE_BPS)
    as [H1 [_ [_ [_ [_ [H2 _]]]]]];
    [ discriminate | reflexivity | discriminate | split; discriminate
    | vm_compute; reflexivity | ].
  split; [ exact H1 | exact H2 ].
Defined.

(** X12.  A liquidation is insolvent exactly when the debt exceeds the
    collateral value.  An insolvent one repays the whole debt, leaves no
    debt and books the positive shortfall as bad debt; a solvent one books
    no bad debt. *)
Theorem insolvency_decides_the_bad_debt
    (collateral_amount collateral_price debt_amount liquidation_cf_bps
     close_factor_bps liquidation_incentive_bps : Z) (l : Liq.Liquidation) :
  Liq.calculate_liquidation collateral_amount collateral_price debt_amount
    liquidation_cf_bps close_factor_bps liquidation_incentive_bps
  = Ok (Liq.Liquidatable l) ->
  let collateral_value := (collateral_amount * collateral_price) / NAD in
  Liq.is_insolvent l = (collateral_value <? debt_amount) /\
  (Liq.is_insolvent l = true ->
   Liq.debt_to_repay l = debt_amount /\ Liq.remaining_debt l = 0 /\
   Liq.bad_debt l = debt_amount - collateral_value /\ 0 < Liq.bad_debt l) /\
  (Liq.is_insolvent l = false ->
   Liq.bad_debt l = 0 /\ debt_amount <= collateral_value).
Proof.
  unfold Liq.calculate_liquidation. cbv zeta.
  destruct (debt_amount <? _); [ discriminate | ].
  destruct (collateral_price =? 0); [ discriminate | ].
  intros H. injection H as <-.
  cbn [Liq.is_insolvent Liq.debt_to_repay Liq.remaining_debt Liq.bad_debt].
  destruct (Z.ltb_spec (collateral_amount * collateral_price / NAD) debt_amount)
    as [Hlt | Hge].
  - split; [ reflexivity | ]. split; [ | discriminate ].
    intros _. repeat split; lia.
  - split; [ reflexivity | ]. split; [ discriminate | ].
    intros _. split; [ reflexivity | exact Hge ].
Qed.

Lemma insolvency_decides_the_bad_debt_witness :
  exists l,
    Liq.calculate_liquidation (1000 * NAD) NAD (1100 * NAD) 8500
      CLOSE_FACTOR_BPS LIQUIDATION_INCENTIVE_BPS = Ok (Liq.Liquidatable l) /\
    Liq.is_insolvent l = true /\
    Liq.bad_debt l = 1100 * NAD - (1000 * NAD * NAD) / NAD.
Proof.
  eexists. split; [ vm_compute; reflexivity | ].
  edestruct (insolvency_decides_the_bad_debt (1000 * NAD) NAD (1100 * NAD) 8500
               CLOSE_FACTOR_BPS LIQUIDATION_INCENTIVE_BPS)
    as [H1 [H2 _]]; [ vm_compute; reflexivity | ].
  split; [ reflexivity | ].
  destruct (H2 eq_refl) as [_ [_ [H3 _]]]. exact H3.
Defined.

(** X13.  [is_liquidatable] and the evaluation of the engine agree on every
    position except the one with zero collateral value and zero debt. *)
Theorem is_liquidatable_agrees_with_the_engine
    (collateral_amount collateral_price debt_amount liquidation_cf_bps
     close_factor_bps liquidation_incentive_bps : Z)
    (res : Liq.LiquidationResult) :
  (collateral_amount * collateral_price) / NAD <> 0 \/ debt_amount <> 0 ->
  Liq.calculate_liquidation collateral_amount collateral_price debt_amount
    liquidation_cf_bps close_factor_bps liquidation_incentive_bps = Ok res ->
  Liq.liquidatable res
  = Liq.is_liquidatable ((collateral_amount * collateral_price) / NAD)
      debt_amount liquidation_cf_bps.
Proof.
  intros Hnz. unfold Liq.calculate_liquidation, Liq.is_liquidatable. cbv zeta.
  set (cv := collateral_amount * collateral_price / NAD) in *.
  destruct (Z.eqb_spec cv 0) as [E | Hcv].
  - rewrite E. rewrite Z.mul_0_l. change (0 / BPS_DENOMINATOR) with 0.
    destruct (Z.ltb_spec debt_amount 0) as [Hlt | Hge].
    + intros H. injection H as <-. cbn. symmetry. apply Z.ltb_ge. lia.
    + destruct (collateral_price =? 0); [ discriminate | ].
      intros H. injection H as <-. cbn. symmetry. apply Z.ltb_lt.
      destruct Hnz as [Hnz | Hnz]; [ contradiction | lia ].
  - destruct (Z.ltb_spec debt_amount (cv * liquidation_cf_bps / BPS_DENOMINATOR))
      as [Hlt | Hge].
    + intros H. injection H as <-. cbn. symmetry. apply Z.leb_gt. exact Hlt.
    + destruct (collateral_price =? 0); [ discriminate | ].
      intros H. injection H as <-. cbn. symmetry. apply Z.leb_le. exact Hge.
Qed.

Lemma is_liquidatable_agrees_with_the_engine_witness :
  exists res,
    Liq.calculate_liquidation (1000 * NAD) NAD (800 * NAD) 8500
      CLOSE_FACTOR_BPS LIQUIDATION_INCENTIVE_BPS = Ok res /\
    Liq.liquidatable res
    = Liq.is_liquidatable ((1000 * NAD * NAD) / NAD) (800 * NAD) 8500.
Proof.
  eexists. split; [ vm_compute; reflexivity | ].
  eapply (is_liquidatable_agrees_with_the_engine (1000 * NAD) NAD (800 * NAD)
            8500 CLOSE_FACTOR_BPS LIQUIDATION_INCENTIVE_BPS);
    [ left; discriminate | vm_compute; reflexivity ].
Defined.

(** X14.  An engine built with partial liquidation disabled repays the
    whole debt in every liquidation, solvent or not, whatever close factor
    it was given. *)
Theorem disabled_partial_liquidation_repays_in_full
    (close_factor_bps liquidation_incentive_bps : Z)
    (collateral_amount collateral_price debt_amount liquidation_cf_bps : Z)
    (self' : Liq.LiquidationEngine) (l : Liq.Liquidation) :
  0 <= debt_amount ->
  Liq.check_and_liquidate
    (Liq.LiquidationEngine_init close_factor_bps liquidation_incentive_bps false)
    collateral_amount collateral_price debt_amount liquidation_cf_bps
  = Ok (self', Liq.Liquidatable l) ->
  Liq.debt_to_repay l = debt_amount /\ Liq.remaining_debt l = 0.
Proof.
  intros Hd. unfold Liq.check_and_liquidate, Liq.LiquidationEngine_init.
  cbn [Liq.close_factor_bps Liq.liquidation_incentive_bps].
  intros H. bind_inv H.
  destruct a as [r | l']; [ discriminate H | ].
  injection H as _ <-. revert Hm.
  unfold Liq.calculate_liquidation. cbv zeta.
  destruct (debt_amount <? _); [ discriminate | ].
  destruct (collateral_price =? 0); [ discriminate | ].
  intros H. injection H as <-. cbn [Liq.debt_to_repay Liq.remaining_debt].
  change 10000 with BPS_DENOMINATOR.
  rewrite Z.div_mul by discriminate.
  destruct (_ <? _); split; lia.
Qed.

Lemma disabled_partial_liquidation_repays_in_full_witness :
  exists self' l,
    Liq.check_and_liquidate
      (Liq.LiquidationEngine_init CLOSE_FACTOR_BPS LIQUIDATION_INCENTIVE_BPS false)
      (1000 * NAD) NAD (900 * NAD) 8500 = Ok (self', Liq.Liquidatable l) /\
    Liq.debt_to_repay l = 900 * NAD /\ Liq.remaining_debt l = 0.
Proof.
  eexists. eexists. split; [ vm_compute; reflexivity | ].
  eapply (disabled_partial_liquidation_repays_in_full CLOSE_FACTOR_BPS
            LIQUIDATION_INCENTIVE_BPS (1000 * NAD) NAD (900 * NAD) 8500);
    [ discriminate | vm_compute; reflexivity ].
Defined.

(** X15.  [estimate_liquidation_price] returns 0 for a position without
    collateral and raises [ZeroDivisionError] exactly when the collateral is
    not zero but collateral times CF is in [0, 10000), so that the scaled
    divisor truncates to zero. *)
Theorem estimate_liquidation_price_errors
    (collateral_amount initial_price debt_amount liquidation_cf_bps : Z) :
  (Liq.estimate_liquidation_price collateral_amount initial_price debt_amount
     liquidation_cf_bps = Raise ZeroDivisionError
   <-> collateral_amount <> 0 /\
       0 <= collateral_amount * liquidation_cf_bps < BPS_DENOMINATOR) /\
  (collateral_amount = 0 ->
   Liq.estimate_liquidation_price collateral_amount initial_price debt_amount
     liquidation_cf_bps = Ok 0).
Proof.
  unfold Liq.estimate_liquidation_price. cbv zeta.
  destruct (Z.eqb_spec collateral_amount 0) as [E | Hc].
  - split; [ | reflexivity ].
    split; [ discriminate | intros [H _]; contradiction ].
  - split; [ | contradiction ].
    destruct (Z.eqb_spec (collateral_amount * liquidation_cf_bps
                          / BPS_DENOMINATOR) 0) as [E | Hne].
    + apply Z.div_small_iff in E; [ | discriminate ].
      unfold BPS_DENOMINATOR in *.
      split; [ intros _; split; [ exact Hc | lia ] | reflexivity ].
    + split; [ discriminate | ].
      intros [_ Hsmall]. exfalso. apply Hne.
      apply Z.div_small. exact Hsmall.
Qed.

(** ** The liquidation cascade *)





(** ** The pool: what one pass over the positions changes *)

Lemma sum_from (l : list Z) (a : Z) : fold_left Z.add l a = a + Pool.sum l.
Proof.
  unfold Pool.sum. revert a.
  induction l as [ | x l IH ]; intros a; cbn [fold_left].
  - lia.
  - rewrite IH. rewrite (IH (0 + x)). lia.
Qed.

Lemma sum_cons (x : Z) (l : list Z) : Pool.sum (x :: l) = x + Pool.sum l.
Proof. unfold Pool.sum at 1. cbn [fold_left]. rewrite sum_from. lia. Qed.

Lemma sum_app (l l' : list Z) : Pool.sum (l ++ l') = Pool.sum l + Pool.sum l'.
Proof.
  induction l as [ | x l IH ]; cbn [app].
  - reflexivity.
  - rewrite !sum_cons, IH. lia.
Qed.

Lemma liquidated_count_cons (p : Pool.BorrowerPosition)
    (ps : list Pool.BorrowerPosition) :
  liquidated_count (p :: ps)
  = (if Pool.liquidated p then 1 else 0) + liquidated_count ps.
Proof.
  unfold liquidated_count. cbn [filter].
  destruct (Pool.liquidated p); cbn [List.length]; lia.
Qed.

Lemma liquidated_count_app (ps ps' : list Pool.BorrowerPosition) :
  liquidated_count (ps ++ ps') = liquidated_count ps + liquidated_count ps'.
Proof.
  unfold liquidated_count. rewrite filter_app, length_app. lia.
Qed.

Lemma pass_effect_refl (self : Pool.GAMMPool)
    (ps : list Pool.BorrowerPosition) :
  pass_effect self self ps ps [].
Proof.
  unfold pass_effect. cbn [map List.length]. rewrite app_nil_r.
  change (Pool.sum []) with 0. rewrite !Z.add_0_r, !Z.sub_0_r.
  repeat split; try reflexivity. lia.
Qed.

Lemma pass_effect_trans (self self1 self2 : Pool.GAMMPool)
    (ps1 ps1' ps2 ps2' : list Pool.BorrowerPosition)
    (evs1 evs2 : list Pool.LiquidationEvent) :
  pass_effect self self1 ps1 ps1' evs1 ->
  pass_effect self1 self2 ps2 ps2' evs2 ->
  pass_effect self self2 (ps1 ++ ps2) (ps1' ++ ps2') (evs1 ++ evs2).
Proof.
  unfold pass_effect. cbv zeta.
  intros (A1 & A2 & A3 & A4 & A5 & A6 & A7 & A8 & A9 & A10 & A11 & A12 & A13
          & A14 & A15 & A16 & A17 & A18 & A19 & A20)
         (B1 & B2 & B3 & B4 & B5 & B6 & B7 & B8 & B9 & B10 & B11 & B12 & B13
          & B14 & B15 & B16 & B17 & B18 & B19 & B20).
  rewrite !map_app, !sum_app, !length_app, !liquidated_count_app, Nat2Z.inj_add.
  repeat split; try congruence; try lia.
  - destruct A9, B9. congruence.
  - destruct A9, B9. congruence.
  - rewrite B11, A11. rewrite app_assoc. reflexivity.
Qed.

Lemma liquidation_fields
    (collateral_amount collateral_price debt_amount liquidation_cf_bps
     close_factor_bps liquidation_incentive_bps : Z) (l : Liq.Liquidation) :
  Liq.calculate_liquidation collateral_amount collateral_price debt_amount
    liquidation_cf_bps close_factor_bps liquidation_incentive_bps
  = Ok (Liq.Liquidatable l) ->
  Liq.remaining_debt l = debt_amount - Liq.debt_to_repay l /\
  Liq.remaining_collateral l = collateral_amount - Liq.collateral_seized l /\
  0 <= Liq.collateral_to_reserves l.
Proof.
  unfold Liq.calculate_liquidation. cbv zeta.
  destruct (debt_amount <? _); [ discriminate | ].
  destruct (collateral_price =? 0); [ discriminate | ].
  intros H. injection H as <-.
  cbn [Liq.remaining_debt Liq.debt_to_repay Liq.remaining_collateral
       Liq.collateral_seized Liq.collateral_to_reserves].
  repeat split. lia.
Qed.

Lemma check_position_effect (timestamp lending_price spot_price : Z)
    (self self' : Pool.GAMMPool) (p p' : Pool.BorrowerPosition)
    (evs : list Pool.LiquidationEvent) :
  Pool.check_position timestamp lending_price spot_price self p
  = Ok (self', p', evs) ->
  pass_effect self self' [p] [p'] evs.
Proof.
  unfold Pool.check_position.
  destruct (Pool.liquidated p) eqn:Hliq.
  - intros H. injection H as <- <- <-. apply pass_effect_refl.
  - intros H. bind_inv H. destruct a as [[mb ma] liq_cf].
    bind_inv H. destruct a as [engine res].
    unfold Liq.check_and_liquidate in Hm0. bind_inv Hm0.
    destruct a as [r | l]; injection Hm0 as <- <-.
    + injection H as <- <- <-.
      unfold pass_effect. cbn. rewrite app_nil_r.
      change (Pool.sum []) with 0.
      repeat split; try reflexivity; lia.
    + injection H as <- <- <-.
      apply liquidation_fields in Hm1. destruct Hm1 as [Hd [Hc Hr]].
      unfold pass_effect. cbn -[Z.add Z.sub Z.of_nat].
      rewrite !liquidated_count_cons. cbn [Pool.liquidated Pool.liquidate].
      rewrite Hliq. change (liquidated_count []) with 0.
      repeat split; try reflexivity; try lia.
Qed.

Section PoolInvariants.

Variable math_exp : PyFloat.float -> PyFloat.float.

Lemma check_positions_effect (timestamp lending_price spot_price : Z)
    (ps : list Pool.BorrowerPosition) :
  forall (self self' : Pool.GAMMPool) (ps' : list Pool.BorrowerPosition)
         (evs : list Pool.LiquidationEvent),
    Pool.check_positions timestamp lending_price spot_price self ps
    = Ok (self', ps', evs) ->
    pass_effect self self' ps ps' evs.
Proof.
  induction ps as [ | q rest IH ]; intros self self' ps' evs H.
  - injection H as <- <- <-. apply pass_effect_refl.
  - cbn [Pool.check_positions] in H. bind_inv H.
    destruct a as [[self1 q'] evs1]. bind_inv H.
    destruct a as [[self2 rest'] evs2]. injection H as <- <- <-.
    apply check_position_effect in Hm. apply IH in Hm0.
    exact (pass_effect_trans _ _ _ [q] [q'] rest rest' _ _ Hm Hm0).
Qed.

Lemma get_lending_price_effect (self self' : Pool.GAMMPool)
    (timestamp price : Z) :
  Pool.get_lending_price math_exp self timestamp = Ok (self', price) ->
  exists oracle,
    self' = Pool.set_price_oracle self oracle /\
    Ema.use_ema oracle = Ema.use_ema (Pool.price_oracle self) /\
    (Ema.ema_engine (Pool.price_oracle self) = None ->
     Ema.ema_engine oracle = None) /\
    (Ema.use_ema (Pool.price_oracle self) = false ->
     oracle = Pool.price_oracle self /\ price = Pool.get_spot_price self).
Proof.
  unfold Pool.get_lending_price, Ema.get_price. cbv zeta. intros H.
  bind_inv H. destruct a as [oracle q]. injection H as <- <-.
  exists oracle. split; [ reflexivity | ].
  revert Hm.
  destruct (Ema.use_ema (Pool.price_oracle self)) eqn:Huse.
  - destruct (Ema.ema_engine (Pool.price_oracle self)) as [e | ] eqn:He.
    + intros Hm. bind_inv Hm. destruct a as [e' q']. injection Hm as <- <-.
      cbn. repeat split; intros; congruence.
    + intros Hm. injection Hm as <- <-.
      repeat split; intros; congruence.
  - intros Hm. injection Hm as <- <-. repeat split; intros; congruence.
Qed.

Lemma check_liquidations_effect (self self' : Pool.GAMMPool) (timestamp : Z)
    (evs : list Pool.LiquidationEvent) :
  Pool.check_liquidations math_exp self timestamp = Ok (self', evs) ->
  exists oracle mid,
    Ema.use_ema oracle = Ema.use_ema (Pool.price_oracle self) /\
    (Ema.ema_engine (Pool.price_oracle self) = None ->
     Ema.ema_engine oracle = None) /\
    pass_effect (Pool.set_price_oracle self oracle) mid
      (Pool.positions self) (Pool.positions self') evs /\
    self' = Pool.set_positions mid (Pool.positions self')
              (Pool.next_position_id mid).
Proof.
  unfold Pool.check_liquidations. intros H. bind_inv H.
  destruct a as [self1 lending_price]. bind_inv H.
  destruct a as [[self2 ps] liquidations]. injection H as <- <-.
  apply get_lending_price_effect in Hm.
  destruct Hm as [oracle [-> [Huse [Hnone _]]]].
  apply check_positions_effect in Hm0.
  exists oracle, self2.
  split; [ exact Huse | ]. split; [ exact Hnone | ].
  split; [ exact Hm0 | reflexivity ].
Qed.

Lemma map_id_nth (ps ps' : list Pool.BorrowerPosition) :
  map Pool.id ps' = map Pool.id ps ->
  List.length ps' = List.length ps /\
  forall (i : nat) (p' : Pool.BorrowerPosition),
    nth_error ps' i = Some p' ->
    exists p, nth_error ps i = Some p /\ Pool.id p' = Pool.id p.
Proof.
  intros H. split.
  - rewrite <- (length_map Pool.id ps'), H. apply length_map.
  - intros i p' Hp'.
    assert (Hi : nth_error (map Pool.id ps') i = Some (Pool.id p'))
      by (rewrite nth_error_map, Hp'; reflexivity).
    rewrite H, nth_error_map in Hi.
    destruct (nth_error ps i) as [p | ]; [ | discriminate ].
    exists p. split; [ reflexivity | ]. injection Hi as ->. reflexivity.
Qed.

Lemma check_liquidations_keeps_invariant (self self' : Pool.GAMMPool)
    (timestamp : Z) (evs : list Pool.LiquidationEvent) :
  Pool.check_liquidations math_exp self timestamp = Ok (self', evs) ->
  pool_invariant self -> pool_invariant self'.
Proof.
  intros H. apply check_liquidations_effect in H.
  destruct H as [oracle [mid [Huse [Hnone [Heff ->]]]]].
  unfold pass_effect in Heff. cbv zeta in Heff. cbn -[Pool.sum] in Heff.
  destruct Heff as (A1 & A2 & A3 & A4 & A5 & A6 & A7 & A8 & A9 & A10 & A11
                    & A12 & A13 & A14 & A15 & A16 & A17 & A18 & A19 & A20).
  intros [[Hb1 Hb2] [[Hc1 [Hc2 [Hc3 Hc4]]] [[Hi1 Hi2] Hw]]].
  unfold pool_invariant, books_balance, liquidations_counted, ids_in_order,
    wired_as_configured. cbn -[Pool.sum].
  destruct (map_id_nth _ _ A10) as [Hlen Hnth].
  split; [ split; lia | ].
  split.
  { rewrite A11, length_app, !map_app, !sum_app, Nat2Z.inj_add.
    repeat split; lia. }
  split.
  { split; [ rewrite A4, Hlen; exact Hi1 | ].
    intros i p' Hp'. destruct (Hnth i p' Hp') as [p [Hp ->]].
    apply Hi2. exact Hp. }
  destruct Hw as [Hw1 [Hw2 [Hw3 [Hw4 Hw5]]]]. destruct A9 as [T1 T2].
  rewrite A1, A2, A3, T1, T2. cbn.
  repeat split; try assumption.
  - rewrite Huse. exact Hw4.
  - intros Hoff. apply Hnone. apply Hw5. exact Hoff.
Qed.

Lemma get_lending_price_keeps_invariant (self self' : Pool.GAMMPool)
    (timestamp price : Z) :
  Pool.get_lending_price math_exp self timestamp = Ok (self', price) ->
  pool_invariant self -> pool_invariant self'.
Proof.
  intros H. apply get_lending_price_effect in H.
  destruct H as [oracle [-> [Huse [Hnone _]]]].
  intros [Hb [Hc [Hi [Hw1 [Hw2 [Hw3 [Hw4 Hw5]]]]]]].
  split; [ exact Hb | ]. split; [ exact Hc | ]. split; [ exact Hi | ].
  unfold wired_as_configured. cbn.
  repeat split; try assumption.
  - rewrite Huse. exact Hw4.
  - intros Hoff. apply Hnone. apply Hw5. exact Hoff.
Qed.

(** [step] is: stamp the time, resynchronise the reserves, read the lending
    price, check the liquidations, and append the snapshot that describes
    the pool at that point. *)
Lemma step_effect (self self' : Pool.GAMMPool) (new_price timestamp : Z)
    (state : Pool.PoolState) :
  Pool.step math_exp self new_price timestamp = Ok (self', state) ->
  exists self1 lending_price self2 evs,
    Pool.get_lending_price math_exp
      (Pool.update_reserves_from_price
         (Pool.set_times self timestamp (Pool.last_update self)) new_price)
      timestamp = Ok (self1, lending_price) /\
    Pool.check_liquidations math_exp self1 timestamp = Ok (self2, evs) /\
    self' = Pool.set_times
              (Pool.set_histories self2 (Pool.state_history self2 ++ [state])
                 (Pool.liquidation_events self2))
              (Pool.current_time self2) timestamp /\
    Pool.ps_timestamp state = timestamp /\
    Pool.ps_reserve_base state = Pool.reserve_base self2 /\
    Pool.ps_reserve_quote state = Pool.reserve_quote self2 /\
    Pool.ps_total_debt state = Pool.total_debt self2 /\
    Pool.ps_total_collateral state = Pool.total_collateral_base self2 /\
    Pool.ps_spot_price state = Pool.get_spot_price self1 /\
    Pool.ps_ema_price state = lending_price /\
    Pool.ps_active_positions state
    = Z.of_nat (List.length (filter (fun p => negb (Pool.liquidated p))
                               (Pool.positions self2))) /\
    Pool.ps_total_bad_debt state
    = Liq.total_bad_debt (Pool.liquidation_engine self2).
Proof.
  unfold Pool.step. cbv zeta. intros H. bind_inv H.
  destruct a as [self1 lending_price]. bind_inv H.
  destruct a as [self2 liquidations]. bind_inv H.
  injection H as <- <-.
  exists self1, lending_price, self2, liquidations.
  split; [ first [ exact Hm | reflexivity ] | ].
  split; [ first [ exact Hm0 | reflexivity ] | ].
  repeat split; reflexivity.
Qed.

Lemma step_keeps_invariant (self self' : Pool.GAMMPool)
    (new_price timestamp : Z) (state : Pool.PoolState) :
  Pool.step math_exp self new_price timestamp = Ok (self', state) ->
  pool_invariant self -> pool_invariant self'.
Proof.
  intros H Hinv. apply step_effect in H.
  destruct H as [self1 [lp [self2 [evs [Hprice [Hcheck [-> _]]]]]]].
  apply get_lending_price_keeps_invariant in Hprice; [ | exact Hinv ].
  apply check_liquidations_keeps_invariant in Hcheck; [ | exact Hprice ].
  exact Hcheck.
Qed.

(** [create_position] reads the lending price and appends one position that
    is not liquidated, carries the next id and owes what was borrowed. *)
Lemma create_position_effect (self self' : Pool.GAMMPool)
    (collateral_amount : Z) (target_ltv : PyFloat.float) (timestamp : Z)
    (position : Pool.BorrowerPosition) :
  Pool.create_position math_exp self collateral_amount target_ltv timestamp
  = Ok (self', position) ->
  exists self1 lending_price,
    Pool.get_lending_price math_exp self timestamp = Ok (self1, lending_price) /\
    self' = Pool.set_reserves
              (Pool.set_totals
                 (Pool.set_positions self1 (Pool.positions self1 ++ [position])
                    (Pool.next_position_id self1 + 1))
                 (Pool.total_debt self1 + Pool.debt_amount position)
                 (Pool.total_collateral_base self1 + collateral_amount))
              (Pool.reserve_base self1)
              (Z.max 0 (Pool.reserve_quote self1 - Pool.debt_amount position)) /\
    Pool.id position = Pool.next_position_id self1 /\
    Pool.collateral_amount position = collateral_amount /\
    Pool.entry_price position = lending_price /\
    Pool.entry_time position = timestamp /\
    Pool.liquidated position = false /\
    Pool.bad_debt_accrued position = 0.
Proof.
  unfold Pool.create_position. intros H. bind_inv H.
  destruct a as [self1 lending_price]. bind_inv H.
  destruct a as [[max_borrow max_cf] liq_cf]. bind_inv H. bind_inv H.
  injection H as <- <-.
  exists self1, lending_price.
  split; [ first [ exact Hm | reflexivity ] | ]. repeat split; reflexivity.
Qed.

Lemma create_position_keeps_invariant (self self' : Pool.GAMMPool)
    (collateral_amount : Z) (target_ltv : PyFloat.float) (timestamp : Z)
    (position : Pool.BorrowerPosition) :
  Pool.create_position math_exp self collateral_amount target_ltv timestamp
  = Ok (self', position) ->
  pool_invariant self -> pool_invariant self'.
Proof.
  intros H Hinv. apply create_position_effect in H.
  destruct H as [self1 [lp [Hprice [-> [Hid [Hcoll [_ [_ [Hliq _]]]]]]]]].
  apply get_lending_price_keeps_invariant in Hprice; [ | exact Hinv ].
  destruct Hprice as [[Hb1 Hb2] [[Hc1 [Hc2 [Hc3 Hc4]]] [[Hi1 Hi2] Hw]]].
  unfold pool_invariant, books_balance, liquidations_counted, ids_in_order.
  cbn -[Pool.sum].
  rewrite !map_app, !sum_app, liquidated_count_app, length_app.
  cbn [map List.length]. rewrite !sum_cons. change (Pool.sum []) with 0.
  rewrite liquidated_count_cons, Hliq. change (liquidated_count []) with 0.
  split; [ split; lia | ].
  split; [ repeat split; lia | ].
  split; [ | exact Hw ].
  split; [ lia | ].
  intros i p Hp.
  destruct (Nat.lt_ge_cases i (List.length (Pool.positions self1))) as [Hlt | Hge].
  - rewrite nth_error_app1 in Hp by exact Hlt. apply Hi2. exact Hp.
  - rewrite nth_error_app2 in Hp by exact Hge.
    destruct (i - List.length (Pool.positions self1))%nat as [ | k ] eqn:Hk.
    + injection Hp as <-. rewrite Hid. lia.
    + destruct k; discriminate Hp.
Qed.

Lemma GAMMPool_init_invariant (cfg : SimulationConfig) (rb rq ts : Z)
    (pool : Pool.GAMMPool) :
  Pool.GAMMPool_init math_exp cfg rb rq ts = Ok pool -> pool_invariant pool.
Proof.
  unfold Pool.GAMMPool_init. intros H.
  bind_inv H. bind_inv H. injection Hm0 as <-. bind_inv H.
  destruct a0 as [oracle' p]. injection H as <-.
  cbn [Pool.price_oracle] in Hm0. revert Hm Hm0.
  unfold Ema.get_price, Ema.PriceOracle_init.
  destruct (ema_enabled cfg) eqn:Hema.
  - intros Hm. bind_inv Hm. injection Hm as <-. cbn.
    intros H. bind_inv H. destruct a as [e' q]. injection H as <- _.
    unfold pool_invariant, books_balance, liquidations_counted, ids_in_order,
      wired_as_configured. cbn. rewrite Hema.
    repeat split; try reflexivity; try discriminate.
    intros [ | i ] p' Hp'; discriminate Hp'.
  - intros Hm. injection Hm as <-. cbn. intros H. injection H as <- _.
    unfold pool_invariant, books_balance, liquidations_counted, ids_in_order,
      wired_as_configured. cbn. rewrite Hema.
    repeat split; try reflexivity.
    intros [ | i ] p' Hp'; discriminate Hp'.
Qed.

Lemma reachable_invariant (pool : Pool.GAMMPool) :
  reachable math_exp pool -> pool_invariant pool.
Proof.
  induction 1 as [ cfg rb rq ts pool Hinit
                 | pool pool' ca ltv ts position _ IH Hcreate
                 | pool pool' price ts state _ IH Hstep
                 | pool pool' ts evs _ IH Hcheck
                 | pool pool' ts price _ IH Hprice
                 | pool price _ IH ].
  - eapply GAMMPool_init_invariant; eassumption.
  - eapply create_position_keeps_invariant; eassumption.
  - eapply step_keeps_invariant; eassumption.
  - eapply check_liquidations_keeps_invariant; eassumption.
  - eapply get_lending_price_keeps_invariant; eassumption.
  - exact IH.
Qed.

End PoolInvariants.

(** ** The pool *)

(** The pools of [partial_liquidation_run] are reachable, with EMA disabled. *)
Lemma partial_liquidation_run_reachable :
  match partial_liquidation_run with
  | Ok (_, after_first, after_second) =>
      reachable exp_not_evaluated after_first /\
      reachable exp_not_evaluated after_second /\
      ema_enabled (Pool.config after_first) = false
  | Raise _ => False
  end.
Proof.
  unfold partial_liquidation_run.
  destruct (Pool.GAMMPool_init exp_not_evaluated TRADITIONAL_LENDING
              (1000 * NAD) (1000 * NAD) 0) as [pool0 | e] eqn:H0;
    [ | vm_compute in H0; discriminate H0 ].
  assert (R0 : reachable exp_not_evaluated pool0)
    by (eapply reach_init; exact H0).
  vm_compute in H0. injection H0 as E0. subst pool0. cbn [bind].
  match goal with
  | |- match bind ?m _ with _ => _ end =>
      destruct m as [[pool1 opened] | e] eqn:H1;
        [ | vm_compute in H1; discriminate H1 ]
  end.
  assert (R1 : reachable exp_not_evaluated pool1)
    by (eapply reach_create_position; [ exact R0 | exact H1 ]).
  clear R0. vm_compute in H1. injection H1 as E1 _. subst pool1. cbn [bind].
  match goal with
  | |- match bind ?m _ with _ => _ end =>
      destruct m as [[pool2 state2] | e] eqn:H2;
        [ | vm_compute in H2; discriminate H2 ]
  end.
  assert (R2 : reachable exp_not_evaluated pool2)
    by (eapply reach_step; [ exact R1 | exact H2 ]).
  clear R1. vm_compute in H2. injection H2 as E2 _. subst pool2. cbn [bind].
  match goal with
  | |- match bind ?m _ with _ => _ end =>
      destruct m as [[pool3 state3] | e] eqn:H3;
        [ | vm_compute in H3; discriminate H3 ]
  end.
  assert (R3 : reachable exp_not_evaluated pool3)
    by (eapply reach_step; [ exact R2 | exact H3 ]).
  cbn [bind]. split; [ exact R2 | split; [ exact R3 | reflexivity ] ].
Qed.

(** X17.  Constructing a pool fails, with [AssertionError], exactly when
    EMA is enabled and the half-life is outside [60, 43200]; with EMA
    disabled the half-life of the configuration is not looked at. *)
Theorem pool_construction_fails_only_on_the_half_life
    (math_exp : PyFloat.float -> PyFloat.float) (cfg : SimulationConfig)
    (rb rq ts : Z) :
  (ema_enabled cfg = true /\
   (half_life cfg < MIN_HALF_LIFE \/ MAX_HALF_LIFE < half_life cfg) ->
   Pool.GAMMPool_init math_exp cfg rb rq ts = Raise AssertionError) /\
  (ema_enabled cfg = false \/
   MIN_HALF_LIFE <= half_life cfg <= MAX_HALF_LIFE ->
   exists pool, Pool.GAMMPool_init math_exp cfg rb rq ts = Ok pool).
Proof.
  unfold Pool.GAMMPool_init, Ema.PriceOracle_init, Ema.EMAEngine_init,
    Ema.get_price, Ema.update.
  destruct (ema_enabled cfg).
  - destruct (Z.leb_spec MIN_HALF_LIFE (half_life cfg)) as [Hlo | Hlo];
      destruct (Z.leb_spec (half_life cfg) MAX_HALF_LIFE) as [Hhi | Hhi];
      cbn; split; try reflexivity;
      try (intros [_ [H | H]]; lia);
      try (intros [H | H]; [ discriminate H | lia ]).
    intros _. eexists. reflexivity.
  - cbn. split; [ intros [H _]; discriminate H | ].
    intros _. eexists. reflexivity.
Qed.

(** X18.  In every reachable pool the aggregates are the sums over the
    positions: [total_debt] is the sum of the debts and
    [total_collateral_base] the sum of the collateral amounts, liquidated
    positions included. *)
Theorem reachable_pool_books_balance
    (math_exp : PyFloat.float -> PyFloat.float) (pool : Pool.GAMMPool) :
  reachable math_exp pool ->
  Pool.total_debt pool = Pool.sum (map Pool.debt_amount (Pool.positions pool)) /\
  Pool.total_collateral_base pool
  = Pool.sum (map Pool.collateral_amount (Pool.positions pool)) /\
  Pool.stat_total_borrowed (Pool.get_statistics pool) = Pool.total_debt pool.
Proof.
  intros H. apply reachable_invariant in H.
  destruct H as [[Hb1 Hb2] _].
  split; [ exact Hb1 | split; [ exact Hb2 | ] ].
  cbn [Pool.get_statistics Pool.stat_total_borrowed]. symmetry. exact Hb1.
Qed.

Lemma reachable_pool_books_balance_witness :
  match partial_liquidation_run with
  | Ok (_, pool, _) =>
      Pool.total_debt pool
      = Pool.sum (map Pool.debt_amount (Pool.positions pool)) /\
      Pool.total_collateral_base pool
      = Pool.sum (map Pool.collateral_amount (Pool.positions pool)) /\
      Pool.stat_total_borrowed (Pool.get_statistics pool) = Pool.total_debt pool
  | Raise _ => False
  end.
Proof.
  pose proof partial_liquidation_run_reachable as H.
  destruct partial_liquidation_run as [[[opened pool] pool'] | e];
    [ | contradiction ].
  destruct H as [H _].
  exact (reachable_pool_books_balance exp_not_evaluated pool H).
Defined.

(** X19.  In every reachable pool the liquidation counters agree: the
    engine's [total_liquidations], the number of recorded events and the
    number of positions marked liquidated are equal, the engine's bad debt
    and liquidated debt are the sums over the events, and the statistics
    report [total_positions = active_positions + liquidated_positions]. *)
Theorem reachable_pool_counts_liquidations
    (math_exp : PyFloat.float -> PyFloat.float) (pool : Pool.GAMMPool) :
  reachable math_exp pool ->
  let stats := Pool.get_statistics pool in
  Pool.stat_total_liquidations stats = Pool.stat_liquidation_events stats /\
  Pool.stat_liquidated_positions stats = Pool.stat_liquidation_events stats /\
  Pool.stat_total_positions stats
  = Pool.stat_active_positions stats + Pool.stat_liquidated_positions stats /\
  Pool.stat_total_bad_debt stats
  = Pool.sum (map (fun ev => Liq.bad_debt (Pool.ev_result ev))
                  (Pool.liquidation_events pool)) /\
  Liq.total_liquidated_debt (Pool.liquidation_engine pool)
  = Pool.sum (map (fun ev => Liq.debt_to_repay (Pool.ev_result ev))
                  (Pool.liquidation_events pool)).
Proof.
  intros H stats. apply reachable_invariant in H.
  destruct H as [_ [[Hc1 [Hc2 [Hc3 Hc4]]] _]].
  subst stats. cbn -[Pool.sum].
  split; [ exact Hc1 | ]. split; [ exact Hc2 | ].
  split; [ | split; [ exact Hc3 | exact Hc4 ] ].
  clear. induction (Pool.positions pool) as [ | p ps IH ]; [ reflexivity | ].
  cbn [filter List.length]. destruct (Pool.liquidated p); cbn [negb List.length]; lia.
Qed.

Lemma reachable_pool_counts_liquidations_witness :
  match partial_liquidation_run with
  | Ok (_, _, pool) =>
      Pool.stat_total_liquidations (Pool.get_statistics pool)
      = Pool.stat_liquidation_events (Pool.get_statistics pool) /\
      Pool.stat_liquidated_positions (Pool.get_statistics pool)
      = Pool.stat_liquidation_events (Pool.get_statistics pool)
  | Raise _ => False
  end.
Proof.
  pose proof partial_liquidation_run_reachable as H.
  destruct partial_liquidation_run as [[[opened pool'] pool] | e];
    [ | contradiction ].
  destruct H as [_ [H _]].
  destruct (reachable_pool_counts_liquidations exp_not_evaluated pool H)
    as [H1 [H2 _]].
  split; [ exact H1 | exact H2 ].
Defined.

(** X20.  In every reachable pool the positions are numbered 1, 2, 3, ...
    in the order they were opened, and [next_position_id] is one more than
    their number; in particular no two positions share an id. *)
Theorem reachable_pool_ids_in_order
    (math_exp : PyFloat.float -> PyFloat.float) (pool : Pool.GAMMPool) :
  reachable math_exp pool ->
  Pool.next_position_id pool = Z.of_nat (List.length (Pool.positions pool)) + 1 /\
  (forall (i : nat) (p : Pool.BorrowerPosition),
     nth_error (Pool.positions pool) i = Some p -> Pool.id p = Z.of_nat i + 1) /\
  (forall (i j : nat) (p q : Pool.BorrowerPosition),
     nth_error (Pool.positions pool) i = Some p ->
     nth_error (Pool.positions pool) j = Some q ->
     Pool.id p = Pool.id q -> i = j).
Proof.
  intros H. apply reachable_invariant in H.
  destruct H as [_ [_ [[Hi1 Hi2] _]]].
  split; [ exact Hi1 | split; [ exact Hi2 | ] ].
  intros i j p q Hp Hq Heq.
  apply Hi2 in Hp. apply Hi2 in Hq. lia.
Qed.

Lemma reachable_pool_ids_in_order_witness :
  match partial_liquidation_run with
  | Ok (_, pool, _) =>
      Pool.next_position_id pool
      = Z.of_nat (List.length (Pool.positions pool)) + 1
  | Raise _ => False
  end.
Proof.
  pose proof partial_liquidation_run_reachable as H.
  destruct partial_liquidation_run as [[[opened pool] pool'] | e];
    [ | contradiction ].
  destruct H as [H _].
  exact (proj1 (reachable_pool_ids_in_order exp_not_evaluated pool H)).
Defined.

(** X21.  With EMA disabled in the configuration the oracle of a reachable
    pool is a pass-through: reading the lending price returns the spot
    price and leaves the pool as it is, and every snapshot of [step]
    records the spot price as lending price. *)
Theorem disabled_ema_is_a_pass_through
    (math_exp : PyFloat.float -> PyFloat.float) (pool : Pool.GAMMPool) :
  reachable math_exp pool ->
  ema_enabled (Pool.config pool) = false ->
  (forall timestamp : Z,
     Pool.get_lending_price math_exp pool timestamp
     = Ok (pool, Pool.get_spot_price pool)) /\
  (forall (new_price timestamp : Z) (pool' : Pool.GAMMPool)
          (state : Pool.PoolState),
     Pool.step math_exp pool new_price timestamp = Ok (pool', state) ->
     Pool.ps_ema_price state = Pool.ps_spot_price state).
Proof.
  intros H Hoff. apply reachable_invariant in H.
  destruct H as [_ [_ [_ [_ [_ [_ [Huse _]]]]]]].
  rewrite Hoff in Huse. split.
  - intros timestamp. unfold Pool.get_lending_price, Ema.get_price.
    rewrite Huse. cbn [bind]. destruct pool. reflexivity.
  - intros new_price timestamp pool' state Hstep.
    apply step_effect in Hstep.
    destruct Hstep as [self1 [lp [self2 [evs [Hprice [_ [_ Hs]]]]]]].
    destruct Hs as [_ [_ [_ [_ [_ [Hspot [Hema _]]]]]]].
    apply get_lending_price_effect in Hprice.
    destruct Hprice as [oracle [-> [_ [_ Hpass]]]].
    destruct (Hpass Huse) as [_ ->].
    rewrite Hspot, Hema. reflexivity.
Qed.

Lemma disabled_ema_is_a_pass_through_witness :
  match partial_liquidation_run with
  | Ok (_, pool, _) =>
      Pool.get_lending_price exp_not_evaluated pool 90
      = Ok (pool, Pool.get_spot_price pool)
  | Raise _ => False
  end.
Proof.
  pose proof partial_liquidation_run_reachable as H.
  destruct partial_liquidation_run as [[[opened pool] pool'] | e];
    [ | contradiction ].
  destruct H as [H [_ Hoff]].
  exact (proj1 (disabled_ema_is_a_pass_through exp_not_evaluated pool H Hoff) 90).
Defined.

(** X22.  A successful [step] appends exactly one snapshot, stamped with
    the timestamp of the step, which mirrors the pool it leaves behind:
    reserves, total debt, total collateral, engine bad debt and the number
    of active positions.  It stamps the pool with the time, keeps the
    configuration, the number and the ids of the positions, and only
    extends the event list, by as many events as positions were newly
    marked liquidated. *)
Theorem step_appends_one_snapshot
    (math_exp : PyFloat.float -> PyFloat.float) (self self' : Pool.GAMMPool)
    (new_price timestamp : Z) (state : Pool.PoolState) :
  Pool.step math_exp self new_price timestamp = Ok (self', state) ->
  Pool.state_history self' = Pool.state_history self ++ [state] /\
  Pool.ps_timestamp state = timestamp /\
  Pool.current_time self' = timestamp /\
  Pool.last_update self' = timestamp /\
  Pool.ps_reserve_base state = Pool.reserve_base self' /\
  Pool.ps_reserve_quote state = Pool.reserve_quote self' /\
  Pool.ps_total_debt state = Pool.total_debt self' /\
  Pool.ps_total_collateral state = Pool.total_collateral_base self' /\
  Pool.ps_total_bad_debt state
  = Liq.total_bad_debt (Pool.liquidation_engine self') /\
  Pool.ps_active_positions state
  = Z.of_nat (List.length (filter (fun p => negb (Pool.liquidated p))
                             (Pool.positions self'))) /\
  Pool.config self' = Pool.config self /\
  map Pool.id (Pool.positions self') = map Pool.id (Pool.positions self) /\
  exists evs,
    Pool.liquidation_events self' = Pool.liquidation_events self ++ evs /\
    Z.of_nat (List.length evs)
    = liquidated_count (Pool.positions self')
      - liquidated_count (Pool.positions self).
Proof.
  intros H. apply step_effect in H.
  destruct H as [self1 [lp [self2 [evs [Hprice [Hcheck [-> Hs]]]]]]].
  destruct Hs as [S1 [S2 [S3 [S4 [S5 [_ [_ [S8 S9]]]]]]]].
  apply get_lending_price_effect in Hprice.
  destruct Hprice as [oracle [-> _]].
  apply check_liquidations_effect in Hcheck.
  destruct Hcheck as [oracle' [mid [_ [_ [Heff Hself2]]]]].
  unfold pass_effect in Heff. cbv zeta in Heff. cbn -[Pool.sum] in Heff.
  destruct Heff as (A1 & A2 & A3 & A4 & A5 & A6 & A7 & A8 & A9 & A10 & A11
                    & A12 & A13 & A14 & A15 & A16 & A17 & A18 & A19 & A20).
  cbn -[Pool.sum].
  assert (Hh : Pool.state_history self2 = Pool.state_history self)
    by (rewrite Hself2; cbn; exact A5).
  assert (Hc : Pool.config self2 = Pool.config self)
    by (rewrite Hself2; cbn; exact A1).
  assert (He : Pool.liquidation_events self2 = Pool.liquidation_events self ++ evs)
    by (rewrite Hself2; cbn; exact A11).
  assert (Ht : Pool.current_time self2 = timestamp)
    by (rewrite Hself2; cbn; exact A6).
  rewrite Hh, Hc, He.
  repeat split; try assumption.
  exists evs. split; [ reflexivity | exact A12 ].
Qed.

Lemma step_appends_one_snapshot_witness :
  exists pool0 pool1 opened pool2 state,
    Pool.GAMMPool_init exp_not_evaluated TRADITIONAL_LENDING
      (1000 * NAD) (1000 * NAD) 0 = Ok pool0 /\
    Pool.create_position exp_not_evaluated pool0 (100 * NAD) three_quarters 0
    = Ok (pool1, opened) /\
    Pool.step exp_not_evaluated pool1 700000000 60 = Ok (pool2, state) /\
    Pool.state_history pool2 = Pool.state_history pool1 ++ [state] /\
    Pool.ps_timestamp state = 60.
Proof.
  do 5 eexists.
  split; [ vm_compute; reflexivity | ].
  split; [ vm_compute; reflexivity | ].
  match goal with
  | |- Pool.step _ ?pool _ _ = _ /\ _ => pose (pool1 := pool)
  end.
  split; [ vm_compute; reflexivity | ].
  edestruct (step_appends_one_snapshot exp_not_evaluated pool1)
    with (new_price := 700000000) (timestamp := 60)
    as [H1 [H2 _]];
    [ vm_compute; reflexivity | split; [ exact H1 | exact H2 ] ].
Defined.

(** X23.  The money moved by a [step]: the base reserve never falls; the
    quote reserve is the resynchronised reserve plus the debt repaid by the
    liquidations of the step; total debt and the debts of the positions
    fall by that same amount; and the engine's bad debt grows by the bad
    debt of the new events. *)
Theorem step_returns_the_repaid_debt
    (math_exp : PyFloat.float -> PyFloat.float) (self self' : Pool.GAMMPool)
    (new_price timestamp : Z) (state : Pool.PoolState) :
  Pool.step math_exp self new_price timestamp = Ok (self', state) ->
  exists evs,
    let repaid :=
      Pool.sum (map (fun ev => Liq.debt_to_repay (Pool.ev_result ev)) evs) in
    Pool.liquidation_events self' = Pool.liquidation_events self ++ evs /\
    Pool.reserve_base self <= Pool.reserve_base self' /\
    Pool.reserve_quote self'
    = (Pool.reserve_base self * new_price) / NAD + repaid /\
    Pool.total_debt self' = Pool.total_debt self - repaid /\
    Pool.sum (map Pool.debt_amount (Pool.positions self'))
    = Pool.sum (map Pool.debt_amount (Pool.positions self)) - repaid /\
    Liq.total_bad_debt (Pool.liquidation_engine self')
    = Liq.total_bad_debt (Pool.liquidation_engine self)
      + Pool.sum (map (fun ev => Liq.bad_debt (Pool.ev_result ev)) evs).
Proof.
  intros H. apply step_effect in H.
  destruct H as [self1 [lp [self2 [evs [Hprice [Hcheck [-> _]]]]]]].
  apply get_lending_price_effect in Hprice.
  destruct Hprice as [oracle [-> _]].
  apply check_liquidations_effect in Hcheck.
  destruct Hcheck as [oracle' [mid [_ [_ [Heff Hself2]]]]].
  unfold pass_effect in Heff. cbv zeta in Heff. cbn -[Pool.sum] in Heff.
  destruct Heff as (A1 & A2 & A3 & A4 & A5 & A6 & A7 & A8 & A9 & A10 & A11
                    & A12 & A13 & A14 & A15 & A16 & A17 & A18 & A19 & A20).
  exists evs. cbv zeta. cbn -[Pool.sum].
  rewrite Hself2. cbn -[Pool.sum]. rewrite Hself2 in A17. cbn -[Pool.sum] in A17.
  repeat split; assumption.
Qed.

Lemma step_returns_the_repaid_debt_witness :
  exists pool0 pool1 opened pool2 state,
    Pool.GAMMPool_init exp_not_evaluated TRADITIONAL_LENDING
      (1000 * NAD) (1000 * NAD) 0 = Ok pool0 /\
    Pool.create_position exp_not_evaluated pool0 (100 * NAD) three_quarters 0
    = Ok (pool1, opened) /\
    Pool.step exp_not_evaluated pool1 700000000 60 = Ok (pool2, state) /\
    exists evs,
      Pool.liquidation_events pool2 = Pool.liquidation_events pool1 ++ evs /\
      Pool.reserve_base pool1 <= Pool.reserve_base pool2.
Proof.
  do 5 eexists.
  split; [ vm_compute; reflexivity | ].
  split; [ vm_compute; reflexivity | ].
  match goal with
  | |- Pool.step _ ?pool _ _ = _ /\ _ => pose (pool1 := pool)
  end.
  split; [ vm_compute; reflexivity | ].
  edestruct (step_returns_the_repaid_debt exp_not_evaluated pool1)
    with (new_price := 700000000) (timestamp := 60)
    as [evs [H1 [H2 _]]];
    [ vm_compute; reflexivity | exists evs; split; [ exact H1 | exact H2 ] ].
Defined.

(** X24.  Resynchronising the reserves to a price makes the spot price
    that price up to truncation: for a positive base reserve the new spot
    price is never above the target, it is at most one unit below it when
    the base reserve is at least NAD, and it is exactly the target when the
    base reserve is a multiple of NAD. *)
Theorem resynchronised_spot_price (self : Pool.GAMMPool) (new_price : Z) :
  0 < Pool.reserve_base self ->
  let spot :=
    Pool.get_spot_price (Pool.update_reserves_from_price self new_price) in
  spot <= new_price /\
  (NAD <= Pool.reserve_base self -> new_price - 1 <= spot) /\
  (Pool.reserve_base self mod NAD = 0 -> spot = new_price).
Proof.
  intros Hrb spot. subst spot.
  unfold Pool.get_spot_price, Pool.update_reserves_from_price.
  cbn [Pool.reserve_base Pool.reserve_quote Pool.set_reserves].
  set (rb := Pool.reserve_base self) in *.
  destruct (Z.eqb_spec rb 0) as [E | _]; [ lia | ].
  assert (HN : 0 < NAD) by reflexivity.
  pose proof (Z.mul_div_le (rb * new_price) NAD HN) as Hlo.
  pose proof (Z.mul_succ_div_gt (rb * new_price) NAD HN) as Hhi.
  set (rq := rb * new_price / NAD) in *.
  split; [ | split ].
  - apply Z.div_le_upper_bound; [ exact Hrb | lia ].
  - intros Hdeep. apply Z.div_le_lower_bound; [ exact Hrb | ]. lia.
  - intros Hmul. apply Z.div_exact in Hmul; [ | lia ].
    subst rq. set (k := rb / NAD) in *.
    assert (Hk : 0 < k) by lia.
    rewrite Hmul.
    replace (NAD * k * new_price) with (k * new_price * NAD) by ring.
    rewrite Z.div_mul by lia.
    replace (k * new_price * NAD) with (new_price * (NAD * k)) by ring.
    apply Z.div_mul. lia.
Qed.

Lemma resynchronised_spot_price_witness :
  exists pool,
    Pool.GAMMPool_init exp_not_evaluated TRADITIONAL_LENDING
      (1000 * NAD) (1000 * NAD) 0 = Ok pool /\
    Pool.get_spot_price (Pool.update_reserves_from_price pool 700000000)
    = 700000000.
Proof.
  eexists. split; [ vm_compute; reflexivity | ].
  match goal with
  | |- Pool.get_spot_price (Pool.update_reserves_from_price ?p _) = _ =>
      destruct (resynchronised_spot_price p 700000000) as [_ [_ H]];
        [ reflexivity | apply H; reflexivity ]
  end.
Defined.

(** X25.  A successful [create_position] appends exactly one position and
    returns it: it is not liquidated, carries the id that was next, the
    collateral asked for and the time of opening; earlier positions are
    untouched.  Total debt and total collateral grow by the debt and the
    collateral of the new position, the quote reserve falls by the debt but
    never below zero, and the base reserve, the history and the events are
    unchanged. *)
Theorem create_position_appends_one_position
    (math_exp : PyFloat.float -> PyFloat.float) (self self' : Pool.GAMMPool)
    (collateral_amount : Z) (target_ltv : PyFloat.float) (timestamp : Z)
    (position : Pool.BorrowerPosition) :
  Pool.create_position math_exp self collateral_amount target_ltv timestamp
  = Ok (self', position) ->
  Pool.positions self' = Pool.positions self ++ [position] /\
  Pool.id position = Pool.next_position_id self /\
  Pool.next_position_id self' = Pool.next_position_id self + 1 /\
  Pool.collateral_amount position = collateral_amount /\
  Pool.entry_time position = timestamp /\
  Pool.liquidated position = false /\
  Pool.total_debt self' = Pool.total_debt self + Pool.debt_amount position /\
  Pool.total_collateral_base self'
  = Pool.total_collateral_base self + collateral_amount /\
  Pool.reserve_quote self'
  = Z.max 0 (Pool.reserve_quote self - Pool.debt_amount position) /\
  0 <= Pool.reserve_quote self' /\
  Pool.reserve_base self' = Pool.reserve_base self /\
  Pool.state_history self' = Pool.state_history self /\
  Pool.liquidation_events self' = Pool.liquidation_events self.
Proof.
  intros H. apply create_position_effect in H.
  destruct H as [self1 [lp [Hprice [-> [Hid [Hcoll [_ [Htime [Hliq _]]]]]]]]].
  apply get_lending_price_effect in Hprice.
  destruct Hprice as [oracle [-> _]]. cbn in *.
  repeat split; try assumption; try reflexivity. lia.
Qed.

Lemma create_position_appends_one_position_witness :
  exists pool0 pool1 opened,
    Pool.GAMMPool_init exp_not_evaluated TRADITIONAL_LENDING
      (1000 * NAD) (1000 * NAD) 0 = Ok pool0 /\
    Pool.create_position exp_not_evaluated pool0 (100 * NAD) three_quarters 0
    = Ok (pool1, opened) /\
    Pool.positions pool1 = Pool.positions pool0 ++ [opened] /\
    Pool.id opened = Pool.next_position_id pool0.
Proof.
  do 3 eexists.
  split; [ vm_compute; reflexivity | ].
  match goal with
  | |- Pool.create_position _ ?pool _ _ _ = _ /\ _ => pose (pool0 := pool)
  end.
  split; [ vm_compute; reflexivity | ].
  edestruct (create_position_appends_one_position exp_not_evaluated pool0)
    with (collateral_amount := 100 * NAD) (target_ltv := three_quarters)
         (timestamp := 0)
    as [H1 [H2 _]];
    [ vm_compute; reflexivity | split; [ exact H1 | exact H2 ] ].
Defined.

(** X26.  Running the steps of a price series records every sample: the
    history grows by one snapshot per sample, stamped with the timestamps
    of the samples in order, while the number and the ids of the positions
    stay as they are. *)
Theorem run_steps_records_every_sample
    (math_exp : PyFloat.float -> PyFloat.float)
    (price_data : list (Z * Z)) (self self' : Pool.GAMMPool) :
  Pool.run_steps math_exp self price_data = Ok self' ->
  exists states,
    Pool.state_history self' = Pool.state_history self ++ states /\
    map Pool.ps_timestamp states = map fst price_data /\
    List.length (Pool.state_history self')
    = (List.length (Pool.state_history self) + List.length price_data)%nat /\
    map Pool.id (Pool.positions self') = map Pool.id (Pool.positions self).
Proof.
  revert self self'.
  induction price_data as [ | [timestamp price] rest IH ]; intros self self' H.
  - injection H as <-. exists []. rewrite app_nil_r.
    cbn [map List.length]. repeat split; try reflexivity. lia.
  - cbn [Pool.run_steps] in H. bind_inv H. destruct a as [self1 state].
    apply IH in H. destruct H as [states [Hh [Ht [_ Hids]]]].
    assert (Hstep : Pool.state_history self1 = Pool.state_history self ++ [state]
                    /\ Pool.ps_timestamp state = timestamp
                    /\ map Pool.id (Pool.positions self1)
                       = map Pool.id (Pool.positions self)).
    { apply step_effect in Hm.
      destruct Hm as [s1 [lp [s2 [evs [Hprice [Hcheck [-> Hs]]]]]]].
      destruct Hs as [S1 _].
      apply get_lending_price_effect in Hprice.
      destruct Hprice as [oracle [-> _]].
      apply check_liquidations_effect in Hcheck.
      destruct Hcheck as [oracle' [mid [_ [_ [Heff Hs2]]]]].
      unfold pass_effect in Heff. cbv zeta in Heff. cbn -[Pool.sum] in Heff.
      destruct Heff as (A1 & A2 & A3 & A4 & A5 & A6 & A7 & A8 & A9 & A10 & _).
      cbn. rewrite Hs2. cbn. rewrite A5.
      repeat split; assumption. }
    destruct Hstep as [Hh1 [Ht1 Hids1]].
    exists (state :: states).
    rewrite Hh, Hh1, <- app_assoc. cbn [app map fst List.length].
    rewrite Ht, Ht1, Hids, Hids1, !length_app. cbn [List.length].
    repeat split; try reflexivity.
    assert (List.length states = List.length rest)
      by (rewrite <- (length_map Pool.ps_timestamp states), Ht; apply length_map).
    lia.
Qed.

Lemma run_steps_records_every_sample_witness :
  exists pool0 pool1,
    Pool.GAMMPool_init exp_not_evaluated TRADITIONAL_LENDING
      (1000 * NAD) (1000 * NAD) 0 = Ok pool0 /\
    Pool.run_steps exp_not_evaluated pool0
      [(60, 900000000); (120, 800000000)] = Ok pool1 /\
    map Pool.ps_timestamp (Pool.state_history pool1) = [60; 120].
Proof.
  do 2 eexists.
  split; [ vm_compute; reflexivity | ].
  match goal with
  | |- Pool.run_steps _ ?pool _ = _ /\ _ => pose (pool0 := pool)
  end.
  split; [ vm_compute; reflexivity | ].
  edestruct (run_steps_records_every_sample exp_not_evaluated
               [(60, 900000000); (120, 800000000)] pool0)
    as [states [H1 [H2 _]]]; [ vm_compute; reflexivity | ].
  rewrite H1. exact H2.
Defined.

(** X27.  The loop of [simulate_scenario] that opens the positions appends
    one position per borrower, in order: each carries the collateral of its
    borrower, or a tenth of the initial base reserve when the borrower names
    none, is opened at the initial timestamp and is not liquidated.  The
    history and the events are untouched. *)
Theorem open_positions_opens_one_per_borrower
    (math_exp : PyFloat.float -> PyFloat.float)
    (borrower_positions : list Pool.Borrower)
    (self self' : Pool.GAMMPool) (initial_base initial_timestamp : Z) :
  Pool.open_positions math_exp self initial_base initial_timestamp
    borrower_positions = Ok self' ->
  exists opened,
    Pool.positions self' = Pool.positions self ++ opened /\
    map Pool.collateral_amount opened
    = map (fun b => default (initial_base / 10) (Pool.collateral b))
          borrower_positions /\
    Forall (fun p => Pool.liquidated p = false /\
                     Pool.entry_time p = initial_timestamp) opened /\
    Pool.next_position_id self'
    = Pool.next_position_id self + Z.of_nat (List.length borrower_positions) /\
    Pool.state_history self' = Pool.state_history self /\
    Pool.liquidation_events self' = Pool.liquidation_events self.
Proof.
  revert self self'.
  induction borrower_positions as [ | b rest IH ]; intros self self' H.
  - injection H as <-. exists []. rewrite app_nil_r. cbn [map List.length].
    repeat split; try reflexivity; [ constructor | lia ].
  - cbn [Pool.open_positions] in H. bind_inv H. destruct a as [self1 p].
    apply IH in H. destruct H as [opened [Hps [Hcoll [Hall [Hnext [Hh He]]]]]].
    apply create_position_effect in Hm.
    destruct Hm as [s1 [lp [Hprice [-> [Hid [Hc [_ [Ht [Hliq _]]]]]]]]].
    apply get_lending_price_effect in Hprice.
    destruct Hprice as [oracle [-> _]]. cbn in *.
    exists (p :: opened). rewrite Hps, <- app_assoc. cbn [app map].
    rewrite Hcoll, Hc, Hnext, Hh, He.
    repeat split; try reflexivity; [ constructor; [ split | ]; assumption | lia ].
Qed.

Lemma open_positions_opens_one_per_borrower_witness :
  exists pool0 pool1,
    Pool.GAMMPool_init exp_not_evaluated TRADITIONAL_LENDING
      (1000 * NAD) (1000 * NAD) 0 = Ok pool0 /\
    Pool.open_positions exp_not_evaluated pool0 (1000 * NAD) 0
      [ {| Pool.collateral := Some (100 * NAD); Pool.ltv := None |};
        {| Pool.collateral := None; Pool.ltv := Some PyFloat.one |} ]
    = Ok pool1 /\
    map Pool.collateral_amount (Pool.positions pool1) = [100 * NAD; 100 * NAD].
Proof.
  do 2 eexists.
  split; [ vm_compute; reflexivity | ].
  match goal with
  | |- Pool.open_positions _ ?pool _ _ _ = _ /\ _ => pose (pool0 := pool)
  end.
  split; [ vm_compute; reflexivity | ].
  edestruct (open_positions_opens_one_per_borrower exp_not_evaluated
               [ {| Pool.collateral := Some (100 * NAD); Pool.ltv := None |};
                 {| Pool.collateral := None; Pool.ltv := Some PyFloat.one |} ]
               pool0)
    with (initial_base := 1000 * NAD) (initial_timestamp := 0)
    as [opened [H1 [H2 _]]]; [ vm_compute; reflexivity | ].
  rewrite H1. cbn [Pool.positions pool0 app]. rewrite H2. reflexivity.
Defined.

(** ** The average liquidation CF of a snapshot *)

Lemma calculate_liquidation_cf_capped (self : CF.CollateralFactorCalculator)
    (collateral_amount collateral_ema_price collateral_spot_price
     debt_reserve max_borrow max_allowed_cf_bps liquidation_cf_bps : Z) :
  CF.calculate self collateral_amount collateral_ema_price
    collateral_spot_price debt_reserve
  = Ok (max_borrow, max_allowed_cf_bps, liquidation_cf_bps) ->
  liquidation_cf_bps <= MAX_COLLATERAL_FACTOR_BPS.
Proof.
  unfold CF.calculate, CF.pessimistic_max_debt.
  destruct (_ || _).
  - intros H. injection H as _ _ <-. discriminate.
  - intros H. bind_inv H. destruct a as [base | ].
    + injection H as _ _ <-.
      destruct (CF.use_pessimistic_cap self).
      * apply pessimistic_cf_range.
      * apply Z.le_min_r.
    + injection H as _ _ <-. discriminate.
Qed.

Lemma sum_liq_cf_capped (self : Pool.GAMMPool) (lending_price spot_price : Z)
    (active : list Pool.BorrowerPosition) :
  forall total_cf total : Z,
    Pool.sum_liq_cf self lending_price spot_price active total_cf = Ok total ->
    total <= total_cf + MAX_COLLATERAL_FACTOR_BPS * Z.of_nat (List.length active).
Proof.
  induction active as [ | pos rest IH ]; intros total_cf total H.
  - injection H as <-. cbn [List.length]. lia.
  - cbn [Pool.sum_liq_cf] in H. bind_inv H. destruct a as [[mb ma] liq_cf].
    apply calculate_liquidation_cf_capped in Hm.
    apply IH in H. cbn [List.length]. lia.
Qed.

(** X28.  The average liquidation CF recorded in a snapshot never exceeds
    [MAX_COLLATERAL_FACTOR_BPS], and it is 0 when the step leaves no active
    position. *)
Theorem snapshot_average_cf_is_capped
    (math_exp : PyFloat.float -> PyFloat.float) (self self' : Pool.GAMMPool)
    (new_price timestamp : Z) (state : Pool.PoolState) :
  Pool.step math_exp self new_price timestamp = Ok (self', state) ->
  Pool.ps_average_cf_bps state <= MAX_COLLATERAL_FACTOR_BPS /\
  (Pool.ps_active_positions state = 0 -> Pool.ps_average_cf_bps state = 0).
Proof.
  unfold Pool.step. cbv zeta. intros H. bind_inv H.
  destruct a as [self1 lending_price]. bind_inv H.
  destruct a as [self2 liquidations]. bind_inv H.
  injection H as _ <-.
  cbn [Pool.ps_average_cf_bps Pool.ps_active_positions].
  destruct (filter _ (Pool.positions self2)) as [ | p active ] eqn:Hactive.
  - injection Hm1 as <-. split; [ discriminate | reflexivity ].
  - bind_inv Hm1. injection Hm1 as <-.
    apply sum_liq_cf_capped in Hm2.
    unfold MAX_COLLATERAL_FACTOR_BPS in *.
    change (Z.pos (Pos.of_succ_nat (List.length active)))
      with (Z.of_nat (List.length (p :: active))).
    set (n := Z.of_nat (List.length (p :: active))) in *.
    assert (Hn : 0 < n) by (subst n; cbn [List.length]; lia).
    clearbody n.
    split.
    + apply Z.div_le_upper_bound; [ exact Hn | lia ].
    + intros Hzero. lia.
Qed.

Lemma snapshot_average_cf_is_capped_witness :
  exists pool0 pool1 opened pool2 state,
    Pool.GAMMPool_init exp_not_evaluated TRADITIONAL_LENDING
      (1000 * NAD) (1000 * NAD) 0 = Ok pool0 /\
    Pool.create_position exp_not_evaluated pool0 (100 * NAD) three_quarters 0
    = Ok (pool1, opened) /\
    Pool.step exp_not_evaluated pool1 950000000 60 = Ok (pool2, state) /\
    Pool.ps_average_cf_bps state = 7500 /\
    Pool.ps_average_cf_bps state <= MAX_COLLATERAL_FACTOR_BPS.
Proof.
  do 5 eexists.
  split; [ vm_compute; reflexivity | ].
  split; [ vm_compute; reflexivity | ].
  match goal with
  | |- Pool.step _ ?pool _ _ = _ /\ _ => pose (pool1 := pool)
  end.
  split; [ vm_compute; reflexivity | ].
  split; [ reflexivity | ].
  edestruct (snapshot_average_cf_is_capped exp_not_evaluated pool1)
    with (new_price := 950000000) (timestamp := 60)
    as [H _]; [ vm_compute; reflexivity | exact H ].
Defined.

(** ** The price oracle *)

(** X29.  [get_spot_and_ema] and [get_price] agree: on every oracle and
    observation both leave the oracle in the same state, both raise or
    neither does, and the pair returned is the spot price with the price
    [get_price] returns. *)
Theorem get_spot_and_ema_agrees_with_get_price
    (math_exp : PyFloat.float -> PyFloat.float) (self : Ema.PriceOracle)
    (spot_price timestamp : Z) :
  Ema.get_spot_and_ema math_exp self spot_price timestamp
  = match Ema.get_price math_exp self spot_price timestamp with
    | Ok (self', price) => Ok (self', (spot_price, price))
    | Raise e => Raise e
    end.
Proof.
  unfold Ema.get_spot_and_ema, Ema.get_price.
  destruct (Ema.use_ema self); [ | reflexivity ].
  destruct (Ema.ema_engine self) as [e | ]; [ | reflexivity ].
  destruct (Ema.update math_exp e spot_price timestamp) as [[e' p] | err];
    reflexivity.
Qed.

(** X30.  In a reachable pool whose configuration was built by
    [SimulationConfig.__init__], the close factor of the liquidation
    engine is the one of the configuration, which is 10000 bps whenever
    partial liquidation is disabled; and a configuration with the LTV
    buffer disabled carries a buffer of 0. *)
Theorem engine_close_factor_is_the_configured_one
    (math_exp : PyFloat.float -> PyFloat.float) (pool : Pool.GAMMPool)
    (kw : SimulationConfigArgs) :
  reachable math_exp pool ->
  Pool.config pool = SimulationConfig_init kw ->
  Liq.close_factor_bps (Pool.liquidation_engine pool)
  = close_factor_bps (Pool.config pool) /\
  (partial_liquidation_enabled (Pool.config pool) = false ->
   Liq.close_factor_bps (Pool.liquidation_engine pool) = 10000) /\
  (ltv_buffer_enabled (Pool.config pool) = false ->
   ltv_buffer_bps (Pool.config pool) = 0).
Proof.
  intros H Hcfg. apply reachable_invariant in H.
  destruct H as [_ [_ [_ [_ [Hclose _]]]]].
  rewrite Hclose, Hcfg. unfold SimulationConfig_init. cbn.
  destruct (default true (arg_partial_liquidation_enabled kw));
    destruct (default true (arg_ltv_buffer_enabled kw));
    repeat split; intros; congruence.
Qed.

Lemma engine_close_factor_is_the_configured_one_witness :
  match partial_liquidation_run with
  | Ok (_, pool, _) =>
      Liq.close_factor_bps (Pool.liquidation_engine pool)
      = close_factor_bps (Pool.config pool)
  | Raise _ => False
  end.
Proof.
  pose proof partial_liquidation_run_reachable as H.
  assert (Hcfg : match partial_liquidation_run with
                 | Ok (_, pool, _) => Pool.config pool = TRADITIONAL_LENDING
                 | Raise _ => False
                 end) by (vm_compute; reflexivity).
  destruct partial_liquidation_run as [[[opened pool] pool'] | e];
    [ | contradiction ].
  destruct H as [H _].
  exact (proj1 (engine_close_factor_is_the_configured_one exp_not_evaluated
                  pool _ H Hcfg)).
Defined.
